(** * candidate_models: the lazy model registry

    A shallow embedding of [candidate_models/base_models/__init__.py] and
    [candidate_models/model_commitments/__init__.py].

    Python code that raises and mutates is written in a small state-and-error
    monad [Py S]: a computation maps a state to the new state and either a
    value or the exception raised.  State changes made before an exception
    persist, as they do in Python.  Calls into external collaborators
    (TensorFlow, torchvision, keras, the operating system, the S3 bucket) are
    recorded in a trace of [event]s; the operating system and the bucket are an
    interface ([Platform]) the development is parametric in. *)

From Stdlib Require Import List String Ascii ZArith Lia Bool DecimalString.
Import ListNotations.

Local Open Scope string_scope.
Local Open Scope Z_scope.

(** ** Strings, as the Python code uses them *)

Module PyStr.

(** [str(n)] and [f"{n}"] for a Python int. *)
Definition of_int (n : Z) : string := NilZero.string_of_int (Z.to_int n).

(** [s.startswith(p)] *)
Definition startswith (s p : string) : bool := String.prefix p s.

(** [s.endswith(p)] *)
Fixpoint endswith (s p : string) : bool :=
  if String.eqb s p then true
  else match s with
       | EmptyString => false
       | String _ s' => endswith s' p
       end.

(** [s.split(sep)[0]]: the part of [s] before the leftmost occurrence of
    [sep], all of [s] when [sep] does not occur. *)
Fixpoint split_head (sep s : string) : string :=
  if String.prefix sep s then EmptyString
  else match s with
       | EmptyString => EmptyString
       | String c s' => String c (split_head sep s')
       end.

(** [sep] occurs in [s] at some position. *)
Fixpoint contains (sep s : string) : bool :=
  if String.prefix sep s then true
  else match s with
       | EmptyString => false
       | String _ s' => contains sep s'
       end.

Fixpoint repeat0 (n : nat) : string :=
  match n with
  | O => EmptyString
  | S n' => String "0"%char (repeat0 n')
  end.

(** Zero padding on the left up to [width] characters (the [0] flag of a
    format specification, for a value without sign). *)
Definition zero_pad (width : nat) (s : string) : string :=
  repeat0 (width - String.length s) ++ s.

End PyStr.

(** ** The floats of the descriptor table

    Every multiplier literal of the table has at most two decimal digits and
    the only arithmetic on it is [multiplier * 100].  A float [x] is represented
    by the integer [100 * x]; the literals [1.0 0.75 0.5 0.25 1.4 1.3 0.35] and
    their products with 100 are then exact, and [repr] prints them with the
    shortest decimal expansion that has at least one digit after the point. *)

Module PyFloat.

Record t : Type := mk { hundredths : Z }.

(** Literals: [0.75] denotes [mk 75], [1.4] denotes [mk 140]. *)
Definition of_number (n : Number.number) : option t :=
  match n with
  | Number.Decimal (Decimal.Decimal (Decimal.Pos i) f) =>
      match Decimal.nb_digits f with
      | 0%nat => Some (mk (100 * Z.of_uint i))
      | 1%nat => Some (mk (100 * Z.of_uint i + 10 * Z.of_uint f))
      | 2%nat => Some (mk (100 * Z.of_uint i + Z.of_uint f))
      | _ => None
      end
  | _ => None
  end.

Definition to_number (x : t) : option Number.number := None.

Definition eqb (x y : t) : bool := hundredths x =? hundredths y.

(** [x * n] for an int [n]. *)
Definition mul_int (x : t) (n : Z) : t := mk (hundredths x * n).

(** [x in xs] *)
Definition mem (x : t) (xs : list t) : bool := existsb (eqb x) xs.

(** [repr(x)], which is also [f"{x}"].  Exact for a value that is not
    negative and has at most fifteen significant digits. *)
Definition repr (x : t) : string :=
  let q := hundredths x / 100 in
  let r := hundredths x mod 100 in
  PyStr.of_int q ++ "." ++
    (if r mod 10 =? 0 then PyStr.of_int (r / 10)
     else PyStr.of_int (r / 10) ++ PyStr.of_int (r mod 10)).

(** [f"{x:03}"]: no presentation type, zero fill, minimum width 3. *)
Definition format_03 (x : t) : string := PyStr.zero_pad 3 (repr x).

End PyFloat.

Declare Scope pyfloat_scope.
Delimit Scope pyfloat_scope with f.
Number Notation PyFloat.t PyFloat.of_number PyFloat.to_number : pyfloat_scope.

(** ** [os.path] *)

Module posixpath.

Definition join1 (path b : string) : string :=
  if PyStr.startswith b "/" then b
  else if (String.eqb path "" || PyStr.endswith path "/")%bool then path ++ b
  else path ++ "/" ++ b.

(** [os.path.join(a, *p)] *)
Definition join (a : string) (p : list string) : string := fold_left join1 p a.

End posixpath.

(** ** Exceptions and the monad *)

Inductive exn : Type :=
| AssertionError (condition : string)
| NameError (name : string)
| DuplicateKey (key : string)
| NotFound (key : string)
| ExternalError (message : string).

Inductive result (A : Type) : Type :=
| Ok (a : A)
| Raise (e : exn).
Arguments Ok {A} a.
Arguments Raise {A} e.

Definition Py (S A : Type) : Type := S -> S * result A.

Definition ret {S A : Type} (a : A) : Py S A := fun s => (s, Ok a).

Definition raise {S A : Type} (e : exn) : Py S A := fun s => (s, Raise e).

Definition bind {S A B : Type} (c : Py S A) (k : A -> Py S B) : Py S B :=
  fun s => match c s with
           | (s', Ok a) => k a s'
           | (s', Raise e) => (s', Raise e)
           end.

Declare Scope py_scope.
Delimit Scope py_scope with py.
Notation "x <- c ;; k" := (bind c (fun x => k))
  (at level 61, c at next level, right associativity) : py_scope.
Notation "c ;; k" := (bind c (fun _ => k))
  (at level 61, right associativity) : py_scope.
Local Open Scope py_scope.

(** [assert cond], tagged with the source text of the condition. *)
Definition assert {S : Type} (cond : bool) (text : string) : Py S unit :=
  if cond then ret tt else raise (AssertionError text).

(** [for x in xs: body(x)] *)
Fixpoint for_each {S A : Type} (xs : list A) (body : A -> Py S unit) : Py S unit :=
  match xs with
  | [] => ret tt
  | x :: xs' => body x ;; for_each xs' body
  end.

(** ** Python's built-in [dict]: insertion ordered, assignment overwrites *)

Module dict.

Definition t (V : Type) : Type := list (string * V).

Fixpoint get {V : Type} (d : t V) (key : string) : option V :=
  match d with
  | [] => None
  | (k, v) :: d' => if String.eqb k key then Some v else get d' key
  end.

Definition contains {V : Type} (d : t V) (key : string) : bool :=
  match get d key with Some _ => true | None => false end.

(** [d[key] = value]: an existing key keeps its position. *)
Fixpoint set {V : Type} (d : t V) (key : string) (value : V) : t V :=
  match d with
  | [] => [(key, value)]
  | (k, v) :: d' =>
      if String.eqb k key then (k, value) :: d' else (k, v) :: set d' key value
  end.

(** [del d[key]] on a present key. *)
Fixpoint remove {V : Type} (d : t V) (key : string) : t V :=
  match d with
  | [] => []
  | (k, v) :: d' => if String.eqb k key then d' else (k, v) :: remove d' key
  end.

Definition keys {V : Type} (d : t V) : list string := map fst d.

Definition items {V : Type} (d : t V) : list (string * V) := d.

End dict.

(** ** [UniqueKeyDict] *)

Module UniqueKeyDict.

(** Modelled from the spec: the class [UniqueKeyDict] is defined in
    [candidate_models.utils] ([submission.utils] for [model_commitments]),
    outside the two modules embedded here.  The spec (4.2) gives it the
    contract of an ordinary mapping, except that [set(key, value)] fails with
    a Duplicate-Key error if [key] is already present. *)
Definition t (V : Type) : Type := dict.t V.

Definition empty {V : Type} : t V := [].

(** Modelled from the spec: [set(key, value)], written [d[key] = value],
    fails with a Duplicate-Key error if [key] is already present (4.2) and
    otherwise stores the value as an ordinary mapping does. *)
Definition set {V : Type} (key : string) (value : V) : Py (t V) unit :=
  fun d =>
    if dict.contains d key then (d, Raise (DuplicateKey key))
    else (dict.set d key value, Ok tt).

(** Modelled from the spec: [get(key)], written [d[key]], of an ordinary
    mapping (4.2); a missing key is a Not-Found error (7). *)
Definition get {V : Type} (key : string) : Py (t V) V :=
  fun d =>
    match dict.get d key with
    | Some v => (d, Ok v)
    | None => (d, Raise (NotFound key))
    end.

(** Modelled from the spec: [delete(key)], written [del d[key]], of an
    ordinary mapping (4.2). *)
Definition delete {V : Type} (key : string) : Py (t V) unit :=
  fun d =>
    if dict.contains d key then (dict.remove d key, Ok tt)
    else (d, Raise (NotFound key)).

(** Modelled from the spec: iteration of an ordinary mapping (4.2), over
    the keys in insertion order. *)
Definition keys {V : Type} (d : t V) : list string := dict.keys d.

(** Modelled from the spec: iteration of an ordinary mapping (4.2), over
    the key-value pairs in insertion order. *)
Definition items {V : Type} (d : t V) : list (string * V) := dict.items d.

End UniqueKeyDict.

(** ** [LazyLoad] and the lazy registry *)

Module LazyLoad.

(** Modelled from the spec: the class [LazyLoad] is imported from
    [brainscore.utils], outside the two modules embedded here.  Following the
    spec (2, 3, 4.1) an entry holds a zero-argument factory and the realized
    value, which is absent until the first successful realization. *)
Record t (W V : Type) : Type := mk { load_fnc : Py W V; content : option V }.
Arguments mk {W V} load_fnc content.
Arguments load_fnc {W V} _.
Arguments content {W V} _.

(** Modelled from the spec: [LazyLoad(load_fnc)] is an unrealized entry; the
    factory is stored, not invoked (4.1). *)
Definition new {W V : Type} (load_fnc : Py W V) : t W V := mk load_fnc None.

End LazyLoad.

Module Registry.

Section Registry.
Context {W V : Type}.

(** The registry, the world its factories act on, and the keys whose
    factory has been invoked so far, earliest first (the record an
    instrumented factory would keep). *)
Record state : Type := mk {
  pool : UniqueKeyDict.t (LazyLoad.t W V);
  world : W;
  invocations : list string }.

(** Modelled from the spec: [register(key, factory)] stores an unrealized
    entry (4.1); the registry is a Unique-Key Dictionary, so a key that is
    present is rejected (4.2, 7). *)
Definition register (key : string) (factory : Py W V) : Py state unit :=
  fun s =>
    let (p, r) := UniqueKeyDict.set key (LazyLoad.new factory) (pool s) in
    (mk p (world s) (invocations s), r).

(** Modelled from the spec: [get(key)] returns the realized value: if
    unrealized, invoke [factory()], store the result under [key], mark
    realized, and return it; if already realized, return the cached value
    without invoking [factory] again.  [get] on a missing key fails with a
    Not-Found error.  An error raised inside a factory propagates to the
    caller and the entry remains unrealized (4.1). *)
Definition get (key : string) : Py state V :=
  fun s =>
    match dict.get (pool s) key with
    | None => (s, Raise (NotFound key))
    | Some entry =>
        match LazyLoad.content entry with
        | Some v => (s, Ok v)
        | None =>
            match LazyLoad.load_fnc entry (world s) with
            | (w, Ok v) =>
                (mk (dict.set (pool s) key
                       (LazyLoad.mk (LazyLoad.load_fnc entry) (Some v)))
                    w (invocations s ++ [key]),
                 Ok v)
            | (w, Raise e) =>
                (mk (pool s) w (invocations s ++ [key]), Raise e)
            end
        end
    end.

(** Modelled from the spec: [keys()] enumerates all registered identifiers
    without forcing realization (4.1). *)
Definition keys : Py state (list string) :=
  fun s => (s, Ok (UniqueKeyDict.keys (pool s))).

Fixpoint get_all (ks : list string) : Py state (list (string * V)) :=
  match ks with
  | [] => ret []
  | k :: ks' =>
      v <- get k ;;
      rest <- get_all ks' ;;
      ret ((k, v) :: rest)
  end.

(** Modelled from the spec: [items()] forces realization of every entry it
    yields (4.1). *)
Definition items : Py state (list (string * V)) :=
  ks <- keys ;; get_all ks.

(** The state after looking up the keys [ks] one after the other, whatever
    each lookup returns. *)
Fixpoint after_gets (ks : list string) (s : state) : state :=
  match ks with
  | [] => s
  | k :: ks' => after_gets ks' (fst (get k s))
  end.

(** The entry of [key] is realized and caches [v]. *)
Definition cached (s : state) (key : string) (v : V) : Prop :=
  exists entry, dict.get (pool s) key = Some entry
                /\ LazyLoad.content entry = Some v.

(** What a lookup does, case by case: the key is missing, the entry is
    realized, the factory returns a value, the factory raises. *)
Inductive get_spec (s : state) (k : string) : state * result V -> Prop :=
| get_missing :
    dict.get (pool s) k = None ->
    get_spec s k (s, Raise (NotFound k))
| get_hit entry v :
    dict.get (pool s) k = Some entry ->
    LazyLoad.content entry = Some v ->
    get_spec s k (s, Ok v)
| get_realize entry w v :
    dict.get (pool s) k = Some entry ->
    LazyLoad.content entry = None ->
    LazyLoad.load_fnc entry (world s) = (w, Ok v) ->
    get_spec s k
      (mk (dict.set (pool s) k
             (LazyLoad.mk (LazyLoad.load_fnc entry) (Some v)))
          w (invocations s ++ [k]),
       Ok v)
| get_fail entry w e :
    dict.get (pool s) k = Some entry ->
    LazyLoad.content entry = None ->
    LazyLoad.load_fnc entry (world s) = (w, Raise e) ->
    get_spec s k (mk (pool s) w (invocations s ++ [k]), Raise e).

(** The entry of [key] holds a realized value. *)
Definition realized (s : state) (key : string) : bool :=
  match dict.get (pool s) key with
  | Some entry =>
      match LazyLoad.content entry with Some _ => true | None => false end
  | None => false
  end.

(** How often the factory of [key] has been invoked. *)
Definition invocation_count (s : state) (key : string) : nat :=
  List.length (filter (String.eqb key) (invocations s)).

End Registry.

Arguments state : clear implicits.

End Registry.

(** ** The platform: environment, file system and weight storage

    [os.getenv], [os.path.expanduser], [os.path.isdir], [os.makedirs],
    [glob.glob] and [s3.download_folder] are taken as an interface over an
    abstract operating-system state. *)

Class Platform (OS : Type) : Type := {
  getenv : OS -> string -> option string;
  expanduser : OS -> string -> string;
  isdir : OS -> string -> bool;
  makedirs : string -> Py OS unit;
  download_folder : string -> string -> Py OS unit;
  glob : OS -> string -> list string }.

(** [os.getenv(name, default)] *)
Definition getenv_default {OS : Type} `{Platform OS}
    (o : OS) (name default : string) : string :=
  match getenv o name with
  | Some v => v
  | None => default
  end.

(** ** External objects, kept symbolic *)

(** Tensors of the TensorFlow graph under construction. *)
Inductive tensor : Type :=
| placeholder (batch_size : Z)
| map_fn (preprocessing_type : string) (image_size : Z) (elems : tensor)
| network (net_name : string) (num_classes : Z) (images : tensor).

(** A [tf.Session] and the checkpoint restored into it: the path and whether
    the variables are restored through their exponential moving average. *)
Record session : Type := mkSession { restored : option (string * bool) }.

(** Model handles (activation extractors), as the wrappers are constructed. *)
Inductive handle : Type :=
| PytorchWrapper (function : string) (image_size : Z)
| KerasWrapper (module model_function : string) (image_size : Z)
| TensorflowSlimWrapper (identifier : string) (endpoints logits inputs : tensor)
    (sess : session) (batch_size labels_offset : Z).

(** Calls into external collaborators, in the order they are made. *)
Inductive event : Type :=
| tf_placeholder (batch_size : Z)
| tf_map_fn (preprocessing_type : string) (image_size : Z)
| nets_factory_get_network_fn (net_name : string) (num_classes : Z)
| model_ctr_call (net_name : string)
| tf_Session
| ema_variables_to_restore
| tf_train_Saver (moving_average : bool)
| os_makedirs (path : string)
| s3_download_folder (folder_key target : string)
| glob_glob (pattern : string)
| restorer_restore (restore_path : string)
| torchvision_model (function : string)
| keras_model_ctr (module model_function : string).

(** ** Module-level variables of [base_models] that closures read

    The loop variables of the descriptor expansion are module globals; a
    lambda whose body names one of them looks it up when it is called.  A
    variable is unbound until its first assignment. *)
Record Globals : Type := mkGlobals {
  g_version : option Z;
  g_multiplier : option PyFloat.t;
  g_image_size : option Z;
  g_identifier : option string;
  g_net_name : option string }.

Definition unbound : Globals := mkGlobals None None None None None.

Record World (OS : Type) : Type := mkWorld {
  os : OS;
  globals : Globals;
  trace : list event }.
Arguments mkWorld {OS} os globals trace.
Arguments os {OS} _.
Arguments globals {OS} _.
Arguments trace {OS} _.

Section Effects.
Context {OS : Type} `{Platform OS}.

(** Record a call to an external collaborator. *)
Definition emit (e : event) : Py (World OS) unit :=
  fun w => (mkWorld (os w) (globals w) (trace w ++ [e]), Ok tt).

Definition os_read {A : Type} (f : OS -> A) : Py (World OS) A :=
  fun w => (w, Ok (f (os w))).

Definition os_run {A : Type} (c : Py OS A) : Py (World OS) A :=
  fun w => let (o, r) := c (os w) in (mkWorld o (globals w) (trace w), r).

(** Read a module global; an unbound name is a [NameError]. *)
Definition global {A : Type} (name : string) (f : Globals -> option A)
    : Py (World OS) A :=
  fun w => match f (globals w) with
           | Some a => (w, Ok a)
           | None => (w, Raise (NameError name))
           end.

End Effects.

(** ** [base_models]: model constructors *)

Section Constructors.
Context {OS : Type} `{Platform OS}.

Definition pytorch_model (function : string) (image_size : Z)
    : Py (World OS) handle :=
  emit (torchvision_model function) ;;
  ret (PytorchWrapper function image_size).

Definition keras_model (module model_function : string) (image_size : Z)
    : Py (World OS) handle :=
  emit (keras_model_ctr module model_function) ;;
  ret (KerasWrapper module model_function image_size).

End Constructors.

Module TFSlimModel.

Section TFSlimModel.
Context {OS : Type} `{Platform OS}.

(** The keys of the table are the supported kinds; the values stand for
    the two preprocessing lambdas. *)
Definition preprocessing_types : dict.t string :=
  [("vgg", "vgg_preprocessing.preprocess_image");
   ("inception", "inception_preprocessing.preprocess_for_eval")].

(** The assertion guards the lookup [preprocessing_types[preprocessing_type]];
    the tensor returned by [tf.map_fn] records which kind was looked up. *)
Definition _init_preprocessing (placeholder : tensor)
    (preprocessing_type : string) (image_size : Z) : Py (World OS) tensor :=
  assert (dict.contains preprocessing_types preprocessing_type)
    "preprocessing_type in preprocessing_types" ;;
  emit (tf_map_fn preprocessing_type image_size) ;;
  ret (map_fn preprocessing_type image_size placeholder).

(** [weights_path] of [_find_model_weights]. *)
Definition cache_root (o : OS) : string :=
  let framework_home :=
    expanduser o (getenv_default o "CM_HOME" "~/.candidate_models") in
  getenv_default o "CM_TSLIM_WEIGHTS_DIR"
    (posixpath.join framework_home ["model-weights"; "slim"]).

Definition _find_model_weights (model_name : string) : Py (World OS) string :=
  weights_path <- os_read cache_root ;;
  let model_path := posixpath.join weights_path [model_name] in
  present <- os_read (fun o => isdir o model_path) ;;
  (if negb present then
     emit (os_makedirs model_path) ;;
     os_run (makedirs model_path) ;;
     emit (s3_download_folder ("slim/" ++ model_name) model_path) ;;
     os_run (download_folder ("slim/" ++ model_name) model_path)
   else ret tt) ;;
  emit (glob_glob (posixpath.join model_path ["*.ckpt*"])) ;;
  fnames <- os_read (fun o => glob o (posixpath.join model_path ["*.ckpt*"])) ;;
  assert (0 <? Z.of_nat (List.length fnames)) "len(fnames) > 0" ;;
  let restore_path :=
    PyStr.split_head ".ckpt" (nth 0 fnames "") ++ ".ckpt" in
  ret restore_path.

(** The session is mutated by [restorer.restore]; the restored session is
    returned. *)
Definition _restore_imagenet_weights (name : string) (sess : session)
    : Py (World OS) session :=
  var_list <- (if PyStr.startswith name "mobilenet"
               then emit ema_variables_to_restore ;; ret true
               else ret false) ;;
  emit (tf_train_Saver var_list) ;;
  restore_path <- _find_model_weights name ;;
  emit (restorer_restore restore_path) ;;
  ret (mkSession (Some (restore_path, var_list))).

(** [net_name or identifier] *)
Definition or_identifier (net_name : option string) (identifier : string)
    : string :=
  match net_name with
  | Some n => if String.eqb n "" then identifier else n
  | None => identifier
  end.

(** [init(identifier, preprocessing_type, image_size, net_name=None,
    labels_offset=1, batch_size=64)]; callers pass the defaults
    explicitly. *)
Definition init (identifier preprocessing_type : string) (image_size : Z)
    (net_name : option string) (labels_offset batch_size : Z)
    : Py (World OS) handle :=
  emit (tf_placeholder batch_size) ;;
  let inputs := placeholder batch_size in
  preprocess <- _init_preprocessing inputs preprocessing_type image_size ;;
  let net_name := or_identifier net_name identifier in
  emit (nets_factory_get_network_fn net_name (labels_offset + 1000)) ;;
  emit (model_ctr_call net_name) ;;
  let out := network net_name (labels_offset + 1000) preprocess in
  emit tf_Session ;;
  sess <- _restore_imagenet_weights identifier (mkSession None) ;;
  ret (TensorflowSlimWrapper identifier out out inputs sess
         batch_size labels_offset).

End TFSlimModel.

End TFSlimModel.

(** ** [base_models]: the module-level code *)

Section BaseModels.
Context {OS : Type} `{Platform OS}.

(** A zero-argument callable producing a model handle. *)
Definition factory : Type := Py (World OS) handle.

(** The dictionary display assigned to [_key_functions].  The bodies of
    these lambdas name no variable that is assigned again. *)
Definition static_key_functions : dict.t factory :=
  [("alexnet", pytorch_model "alexnet" 224);
   ("squeezenet1_0", pytorch_model "squeezenet1_0" 224);
   ("squeezenet1_1", pytorch_model "squeezenet1_1" 224);
   ("resnet-18", pytorch_model "resnet18" 224);
   ("resnet-34", pytorch_model "resnet34" 224);

   ("vgg-16", keras_model "vgg16" "VGG16" 224);
   ("vgg-19", keras_model "vgg19" "VGG19" 224);
   ("xception", keras_model "xception" "Xception" 299);
   ("densenet-121", keras_model "densenet" "DenseNet121" 224);
   ("densenet-169", keras_model "densenet" "DenseNet169" 224);
   ("densenet-201", keras_model "densenet" "DenseNet201" 224);

   ("inception_v1", TFSlimModel.init "inception_v1" "inception" 224 None 1 64);
   ("inception_v2", TFSlimModel.init "inception_v2" "inception" 224 None 1 64);
   ("inception_v3", TFSlimModel.init "inception_v3" "inception" 299 None 1 64);
   ("inception_v4", TFSlimModel.init "inception_v4" "inception" 299 None 1 64);
   ("inception_resnet_v2",
     TFSlimModel.init "inception_resnet_v2" "inception" 299 None 1 64);
   ("resnet-50_v1", TFSlimModel.init "resnet_v1_50" "vgg" 224 None 0 64);
   ("resnet-101_v1", TFSlimModel.init "resnet_v1_101" "vgg" 224 None 0 64);
   ("resnet-152_v1", TFSlimModel.init "resnet_v1_152" "vgg" 224 None 0 64);
   ("resnet-50_v2", TFSlimModel.init "resnet_v2_50" "inception" 299 None 1 64);
   ("resnet-101_v2", TFSlimModel.init "resnet_v2_101" "inception" 299 None 1 64);
   ("resnet-152_v2", TFSlimModel.init "resnet_v2_152" "inception" 299 None 1 64);
   ("nasnet_mobile", TFSlimModel.init "nasnet_mobile" "inception" 331 None 1 64);
   ("nasnet_large", TFSlimModel.init "nasnet_large" "inception" 331 None 1 64);
   ("pnasnet_large", TFSlimModel.init "pnasnet_large" "inception" 331 None 1 64)].

(** The lambda of the expansion loop,
    [lambda: TFSlimModel.init(identifier, preprocessing_type='inception',
    image_size=image_size, net_name=net_name)].
    Its body names the module globals [identifier], [image_size] and
    [net_name]; they are looked up when the lambda is called. *)
Definition mobilenet_lambda : factory :=
  identifier <- global "identifier" g_identifier ;;
  image_size <- global "image_size" g_image_size ;;
  net_name <- global "net_name" g_net_name ;;
  TFSlimModel.init identifier "inception" image_size (Some net_name) 1 64.

End BaseModels.

(** The (version, multiplier, image_size) tuples the loop runs over. *)
Definition mobilenet_table : list (Z * PyFloat.t * Z) :=
  [ (* v1 *)
    (1, 1.0%f, 224); (1, 1.0%f, 192); (1, 1.0%f, 160); (1, 1.0%f, 128);
    (1, 0.75%f, 224); (1, 0.75%f, 192); (1, 0.75%f, 160); (1, 0.75%f, 128);
    (1, 0.5%f, 224); (1, 0.5%f, 192); (1, 0.5%f, 160); (1, 0.5%f, 128);
    (1, 0.25%f, 224); (1, 0.25%f, 192); (1, 0.25%f, 160); (1, 0.25%f, 128);
    (* v2 *)
    (2, 1.4%f, 224);
    (2, 1.3%f, 224);
    (2, 1.0%f, 224); (2, 1.0%f, 192); (2, 1.0%f, 160); (2, 1.0%f, 128); (2, 1.0%f, 96);
    (2, 0.75%f, 224); (2, 0.75%f, 192); (2, 0.75%f, 160); (2, 0.75%f, 128); (2, 0.75%f, 96);
    (2, 0.5%f, 224); (2, 0.5%f, 192); (2, 0.5%f, 160); (2, 0.5%f, 128); (2, 0.5%f, 96);
    (2, 0.35%f, 224); (2, 0.35%f, 192); (2, 0.35%f, 160); (2, 0.35%f, 128); (2, 0.35%f, 96) ].

(** [identifier = f"mobilenet_v{version}_{multiplier}_{image_size}"] *)
Definition mobilenet_identifier (version : Z) (multiplier : PyFloat.t)
    (image_size : Z) : string :=
  "mobilenet_v" ++ PyStr.of_int version ++ "_" ++ PyFloat.repr multiplier
    ++ "_" ++ PyStr.of_int image_size.

(** The condition of the [if] in the loop body. *)
Definition net_name_override (version : Z) (multiplier : PyFloat.t) : bool :=
  ((version =? 1) && PyFloat.mem multiplier [0.75%f; 0.5%f; 0.25%f])
  || ((version =? 2) && PyFloat.eqb multiplier 1.4%f).

(** [net_name], as the two branches of the [if] assign it. *)
Definition mobilenet_net_name (version : Z) (multiplier : PyFloat.t) : string :=
  if net_name_override version multiplier
  then "mobilenet_v" ++ PyStr.of_int version ++ "_"
         ++ PyFloat.format_03 (PyFloat.mul_int multiplier 100)
  else "mobilenet_v" ++ PyStr.of_int version.

Section Population.
Context {OS : Type} `{Platform OS}.

(** One iteration of the expansion loop: the targets of the [for] and the
    two assignments rebind the module globals, then the lambda is stored
    under the identifier. *)
Definition expansion_step (m : Globals * dict.t factory)
    (row : Z * PyFloat.t * Z) : Globals * dict.t factory :=
  let '(version, multiplier, image_size) := row in
  let identifier := mobilenet_identifier version multiplier image_size in
  let net_name := mobilenet_net_name version multiplier in
  (mkGlobals (Some version) (Some multiplier) (Some image_size)
     (Some identifier) (Some net_name),
   dict.set (snd m) identifier mobilenet_lambda).

(** The module globals and [_key_functions] after the expansion loop. *)
Definition expansion : Globals * dict.t factory :=
  fold_left expansion_step mobilenet_table (unbound, static_key_functions).

Definition module_globals : Globals := fst expansion.

Definition _key_functions : dict.t factory := snd expansion.

(** [for key, function in _key_functions.items():
       base_model_pool[key] = LazyLoad(lambda function=function: function())]
    The default value binds [function] when the lambda is created. *)
Definition populate (functions : dict.t factory)
    : Py (Registry.state (World OS) handle) unit :=
  for_each (dict.items functions)
    (fun '(key, function) => Registry.register key (fun w => function w)).

(** The state when the population loop starts: [base_model_pool] is the
    empty [UniqueKeyDict()], the loop variables of the expansion keep their
    last values. *)
Definition before_population (o : OS) : Registry.state (World OS) handle :=
  Registry.mk UniqueKeyDict.empty (mkWorld o module_globals []) [].

(** The registry and the world once [base_models] is imported. *)
Definition imported (o : OS) : Registry.state (World OS) handle :=
  fst (populate _key_functions (before_population o)).

Definition base_model_pool (o : OS)
    : UniqueKeyDict.t (LazyLoad.t (World OS) handle) :=
  Registry.pool (imported o).

End Population.

(** ** [model_commitments]: the module-level code *)

Section ModelCommitments.
Context {M : Type}.

(** [for identifier, model in pool.items():
       brain_translated_pool[identifier] = model] *)
Definition add_pool (pool_items : list (string * M))
    : Py (UniqueKeyDict.t M) unit :=
  for_each pool_items
    (fun '(identifier, model) => UniqueKeyDict.set identifier model).

(** [brain_translated_pool] is filled from the items of [ml_brain_pool],
    then from those of [cornet_brain_pool]. *)
Definition fill_brain_translated_pool
    (ml_brain_pool cornet_brain_pool : list (string * M))
    : Py (UniqueKeyDict.t M) unit :=
  add_pool ml_brain_pool ;; add_pool cornet_brain_pool.

(** The same loop, once per pool in the given order. *)
Definition merge (pools : list (list (string * M)))
    : UniqueKeyDict.t M * result unit :=
  for_each pools add_pool UniqueKeyDict.empty.

Definition brain_translated_pool
    (ml_brain_pool cornet_brain_pool : list (string * M))
    : UniqueKeyDict.t M * result unit :=
  fill_brain_translated_pool ml_brain_pool cornet_brain_pool
    UniqueKeyDict.empty.

End ModelCommitments.

(** ** A small concrete platform

    Directories and the bucket are dictionaries from a path (a folder key) to
    the names of the files below it.  Used to run the model on examples. *)

Module SimplePlatform.

Record os_state : Type := mk {
  environ : dict.t string;
  home : string;
  dirs : dict.t (list string);
  bucket : dict.t (list string) }.

Definition sp_expanduser (o : os_state) (path : string) : string :=
  match path with
  | String "~" rest =>
      if (String.eqb rest "" || PyStr.startswith rest "/")%bool
      then home o ++ rest else path
  | _ => path
  end.

Definition sp_makedirs (path : string) : Py os_state unit :=
  fun o =>
    if dict.contains (dirs o) path
    then (o, Raise (ExternalError "FileExistsError"))
    else (mk (environ o) (home o) (dict.set (dirs o) path []) (bucket o), Ok tt).

Definition sp_download_folder (folder_key target : string) : Py os_state unit :=
  fun o =>
    match dict.get (bucket o) folder_key with
    | Some files =>
        (mk (environ o) (home o) (dict.set (dirs o) target files) (bucket o),
         Ok tt)
    | None => (o, Raise (ExternalError "download failed"))
    end.

(** Only patterns [<directory>/*.ckpt*] are understood. *)
Fixpoint glob_in (ds : dict.t (list string)) (pattern : string) : list string :=
  match ds with
  | [] => []
  | (d, files) :: ds' =>
      if String.eqb (posixpath.join d ["*.ckpt*"]) pattern
      then map (fun f => posixpath.join d [f])
             (filter (fun f => PyStr.contains ".ckpt" f
                               && negb (PyStr.startswith f "."))%bool files)
      else glob_in ds' pattern
  end.

#[global] Instance platform : Platform os_state := {
  getenv o name := dict.get (environ o) name;
  expanduser := sp_expanduser;
  isdir o path := dict.contains (dirs o) path;
  makedirs := sp_makedirs;
  download_folder := sp_download_folder;
  glob o pattern := glob_in (dirs o) pattern }.

(** No cache yet; the bucket holds the inception_v1 checkpoint. *)
Definition fresh : os_state :=
  mk [] "/home/user" []
     [("slim/inception_v1", ["inception_v1.ckpt"]);
      ("slim/mobilenet_v2_0.35_96",
        ["mobilenet_v2_0.35_96.ckpt.index";
         "mobilenet_v2_0.35_96.ckpt.data-00000-of-00001"])].

(** A cache directory that exists and is empty. *)
Definition empty_cache : os_state :=
  mk [] "/home/user"
     [("/home/user/.candidate_models/model-weights/slim/inception_v1", [])]
     [("slim/inception_v1", ["inception_v1.ckpt"])].

End SimplePlatform.

(** ** Definitions the statements below are phrased with *)

(** No string occurs twice in the list. *)
Fixpoint nodupb (l : list string) : bool :=
  match l with
  | [] => true
  | x :: l' => negb (existsb (String.eqb x) l') && nodupb l'
  end.

(** A computation only adds to the trace of external calls. *)
Definition extends {OS A : Type} (c : Py (World OS) A) : Prop :=
  forall w, exists rest, trace (fst (c w)) = (trace w ++ rest)%list.

(** In the spec's words: the cache is rooted at the weights-directory
    override if set, else at the home-directory override joined with
    [model-weights/slim], else at [~/.candidate_models/model-weights/slim]. *)
Definition cache_root_spec {OS : Type} `{Platform OS} (o : OS) : string :=
  match getenv o "CM_TSLIM_WEIGHTS_DIR" with
  | Some weights_dir => weights_dir
  | None =>
      match getenv o "CM_HOME" with
      | Some home => posixpath.join (expanduser o home) ["model-weights/slim"]
      | None =>
          posixpath.join (expanduser o "~/.candidate_models")
            ["model-weights/slim"]
      end
  end.

(** [head] is [s] truncated at the first occurrence of [sep]: [sep] follows
    [head] in [s] and does not start further left; when [sep] does not occur
    nothing is cut off. *)
Definition truncated_at_first (sep s head : string) : Prop :=
  (exists rest, s = head ++ sep ++ rest
     /\ forall p r, s = p ++ sep ++ r -> (String.length head <= String.length p)%nat)
  \/ (PyStr.contains sep s = false /\ head = s).

(** In the spec's words: the combined registry holds every identifier of
    every pool, and where several pools have an identifier the entry of the
    latest pool in merge order stands. *)
Definition later_pool_wins {M : Type} (pools : list (list (string * M)))
    (combined : dict.t M) : Prop :=
  forall k, dict.get combined k = dict.get (List.concat (List.rev pools)) k.

(** The (version, multiplier) combinations whose internal name is not the
    default one. *)
Definition override_combinations : list (Z * PyFloat.t) :=
  [(1, 0.75%f); (1, 0.5%f); (1, 0.25%f); (2, 1.4%f)].

(** A factory over a world that counts its calls: it raises on its first
    call and returns the number of the call on every later one. *)
Definition flaky : Py nat nat :=
  fun calls =>
    if (calls =? 0)%nat then (S calls, Raise (ExternalError "first call"))
    else (S calls, Ok (S calls)).

(** A factory that returns the number of the call. *)
Definition counting : Py nat nat := fun calls => (S calls, Ok (S calls)).

(** The multipliers the float model is exact for: not negative, with at most
    two decimal digits (as every value of [PyFloat.t]) and at most fifteen
    significant digits, so that [repr] prints the literal as it is written
    and two floats are equal when their literals are. *)
Definition exact_multiplier (m : PyFloat.t) : Prop :=
  0 <= PyFloat.hundredths m < 10 ^ 15.

(** The module globals as one iteration of the expansion loop over [row]
    leaves them. *)
Definition globals_of_row (row : Z * PyFloat.t * Z) : Globals :=
  let '(version, multiplier, image_size) := row in
  mkGlobals (Some version) (Some multiplier) (Some image_size)
    (Some (mobilenet_identifier version multiplier image_size))
    (Some (mobilenet_net_name version multiplier)).

(** A computation leaves the module globals as they are. *)
Definition keeps_globals {OS A : Type} (c : Py (World OS) A) : Prop :=
  forall w, globals (fst (c w)) = globals w.

(** What [TFSlimModel.init] has recorded when it turns to the weights: the
    placeholder, the preprocessing, the network and the session, then the
    moving-average variables for a mobilenet identifier, then the saver. *)
Definition construction_events (identifier preprocessing_type : string)
    (image_size : Z) (net_name : option string) (labels_offset batch_size : Z)
    : list event :=
  [tf_placeholder batch_size;
   tf_map_fn preprocessing_type image_size;
   nets_factory_get_network_fn
     (TFSlimModel.or_identifier net_name identifier) (labels_offset + 1000);
   model_ctr_call (TFSlimModel.or_identifier net_name identifier);
   tf_Session]
  ++ (if PyStr.startswith identifier "mobilenet"
      then [ema_variables_to_restore] else [])
  ++ [tf_train_Saver (PyStr.startswith identifier "mobilenet")].

(** * Properties *)

(** ** Loops *)

Lemma for_each_app {S A : Type} (xs ys : list A) (body : A -> Py S unit) s :
  for_each (xs ++ ys)%list body s
  = bind (for_each xs body) (fun _ => for_each ys body) s.
Proof.
  revert s. induction xs as [|x xs IH]; intros s; simpl.
  - reflexivity.
  - unfold bind in *. destruct (body x s) as [s1 [[]|e]].
    + apply IH.
    + reflexivity.
Qed.

(** ** Dictionaries *)

Section DictFacts.
Context {V : Type}.
Implicit Types (d : dict.t V) (k : string) (v : V).

Lemma get_set_same d k v : dict.get (dict.set d k v) k = Some v.
Proof.
  induction d as [|[k0 v0] d IH]; simpl.
  - rewrite String.eqb_refl. reflexivity.
  - destruct (String.eqb k0 k) eqn:E; simpl; rewrite E; auto.
Qed.

Lemma get_set_other d k k' v :
  k' <> k -> dict.get (dict.set d k v) k' = dict.get d k'.
Proof.
  intros N. induction d as [|[k0 v0] d IH]; simpl.
  - destruct (String.eqb_spec k k'); congruence.
  - destruct (String.eqb_spec k0 k) as [->|]; simpl.
    + destruct (String.eqb_spec k k'); congruence.
    + destruct (String.eqb k0 k'); auto.
Qed.

Lemma contains_In d k : dict.contains d k = true <-> In k (dict.keys d).
Proof.
  unfold dict.contains. induction d as [|[k0 v0] d IH]; simpl.
  - split; [discriminate | tauto].
  - destruct (String.eqb_spec k0 k) as [->|N].
    + split; auto.
    + rewrite IH. split; [tauto | intros [E|I]; congruence].
Qed.

Lemma not_contains_In d k : dict.contains d k = false <-> ~ In k (dict.keys d).
Proof.
  rewrite <- contains_In. destruct (dict.contains d k); split; congruence.
Qed.

Lemma set_absent d k v :
  dict.contains d k = false -> dict.set d k v = (d ++ [(k, v)])%list.
Proof.
  unfold dict.contains. induction d as [|[k0 v0] d IH]; simpl; intros E.
  - reflexivity.
  - destruct (String.eqb k0 k); [discriminate | rewrite IH; auto].
Qed.

End DictFacts.

Lemma nodupb_NoDup (l : list string) : nodupb l = true -> NoDup l.
Proof.
  induction l as [|x l IH]; simpl; intros E.
  - constructor.
  - apply andb_prop in E. destruct E as [E1 E2]. constructor; auto.
    intros I. apply negb_true_iff in E1.
    assert (existsb (String.eqb x) l = true); [|congruence].
    apply existsb_exists. exists x. split; [assumption | apply String.eqb_refl].
Qed.

(** ** C4: duplicate keys are rejected *)

(** C4. In a Unique-Key Dictionary, [set(k, v)] on a key that is present fails
    with a Duplicate-Key error and the dictionary, so the value stored first,
    is unchanged; on a key that is absent it succeeds as in an ordinary
    mapping: the key then reads [v], every other key reads as before, and a
    second insertion under the key is rejected. *)
Theorem UniqueKeyDict_set_rejects_duplicates
    (V : Type) (d : UniqueKeyDict.t V) (k : string) (v : V) :
  (forall v0, dict.get d k = Some v0 ->
     UniqueKeyDict.set k v d = (d, Raise (DuplicateKey k))
     /\ UniqueKeyDict.get k (fst (UniqueKeyDict.set k v d)) = (d, Ok v0))
  /\ (dict.get d k = None ->
      let d1 := fst (UniqueKeyDict.set k v d) in
      snd (UniqueKeyDict.set k v d) = Ok tt
      /\ UniqueKeyDict.get k d1 = (d1, Ok v)
      /\ (forall k', k' <> k -> dict.get d1 k' = dict.get d k')
      /\ (forall v2, UniqueKeyDict.set k v2 d1 = (d1, Raise (DuplicateKey k))
                     /\ UniqueKeyDict.get k (fst (UniqueKeyDict.set k v2 d1))
                        = (d1, Ok v))).
Proof.
  unfold UniqueKeyDict.set, UniqueKeyDict.get, dict.contains. split.
  - intros v0 E. rewrite E. simpl. rewrite E. auto.
  - intros E. rewrite E. simpl. rewrite get_set_same.
    repeat split; auto using get_set_other.
    simpl. rewrite get_set_same. reflexivity.
Qed.

Lemma UniqueKeyDict_set_rejects_duplicates_witness :
  UniqueKeyDict.set "resnet-50_v1" 2 [("resnet-50_v1", 1)]
    = ([("resnet-50_v1", 1)], Raise (DuplicateKey "resnet-50_v1"))
  /\ snd (UniqueKeyDict.set "resnet-50_v1" 1 []) = Ok tt.
Proof.
  split.
  - apply (proj1 (UniqueKeyDict_set_rejects_duplicates
                    Z [("resnet-50_v1", 1)] "resnet-50_v1" 2) 1 eq_refl).
  - apply (proj2 (UniqueKeyDict_set_rejects_duplicates
                    Z [] "resnet-50_v1" 1) eq_refl).
Defined.

(** ** The lazy registry *)

Section RegistryFacts.
Context {W V : Type}.
Implicit Types (s : Registry.state W V) (k : string) (v : V).

Lemma count_snoc (l : list string) k k' :
  List.length (filter (String.eqb k) (l ++ [k'])%list)
  = (List.length (filter (String.eqb k) l)
     + (if String.eqb k k' then 1 else 0))%nat.
Proof.
  rewrite filter_app, length_app. simpl.
  destruct (String.eqb k k'); reflexivity.
Qed.

Lemma get_cases s k : Registry.get_spec s k (Registry.get k s).
Proof.
  unfold Registry.get.
  destruct (dict.get (Registry.pool s) k) as [entry|] eqn:E.
  - destruct (LazyLoad.content entry) as [v|] eqn:C.
    + eapply Registry.get_hit; eauto.
    + destruct (LazyLoad.load_fnc entry (Registry.world s)) as [w [v|e]] eqn:L.
      * eapply Registry.get_realize; eauto.
      * eapply Registry.get_fail; eauto.
  - apply Registry.get_missing; auto.
Qed.

Lemma get_cached s k v :
  Registry.cached s k v -> Registry.get k s = (s, Ok v).
Proof.
  intros (entry & E & C). unfold Registry.get. rewrite E, C. reflexivity.
Qed.

Lemma get_ok_cached s k v s' :
  Registry.get k s = (s', Ok v) -> Registry.cached s' k v.
Proof.
  intros G. destruct (get_cases s k); inversion G; subst.
  - eexists; eauto.
  - eexists. simpl. rewrite get_set_same. split; reflexivity.
Qed.

Lemma get_preserves_cached s k v k' :
  Registry.cached s k v -> Registry.cached (fst (Registry.get k' s)) k v.
Proof.
  intros (entry & E & C). destruct (get_cases s k'); simpl;
    try (exists entry; split; assumption).
  exists entry. split; [|assumption]. simpl.
  rewrite get_set_other; [assumption|]. congruence.
Qed.

Lemma get_count_cached s k v k' :
  Registry.cached s k v ->
  Registry.invocation_count (fst (Registry.get k' s)) k
  = Registry.invocation_count s k.
Proof.
  intros (entry & E & C). unfold Registry.invocation_count.
  destruct (get_cases s k'); simpl; try reflexivity;
    rewrite count_snoc;
    (destruct (String.eqb_spec k k'); [congruence | apply Nat.add_0_r]).
Qed.

Lemma after_gets_cached ks s k v :
  Registry.cached s k v ->
  Registry.cached (Registry.after_gets ks s) k v
  /\ Registry.invocation_count (Registry.after_gets ks s) k
     = Registry.invocation_count s k.
Proof.
  revert s. induction ks as [|k' ks IH]; intros s C; simpl.
  - auto.
  - destruct (IH (fst (Registry.get k' s))) as [C' N].
    + apply get_preserves_cached; assumption.
    + split; [assumption|]. rewrite N. eapply get_count_cached; eassumption.
Qed.

Lemma get_all_preserves_cached ks s k v :
  Registry.cached s k v -> Registry.cached (fst (Registry.get_all ks s)) k v.
Proof.
  revert s. induction ks as [|k' ks IH]; intros s C; simpl.
  - assumption.
  - unfold bind. pose proof (get_preserves_cached s k v k' C) as C1.
    destruct (Registry.get k' s) as [s1 [v1|e]]; simpl in *; [|assumption].
    specialize (IH s1 C1).
    destruct (Registry.get_all ks s1) as [s2 [l|e]]; simpl in *; assumption.
Qed.

Lemma get_all_realizes ks s s' l :
  Registry.get_all ks s = (s', Ok l) ->
  map fst l = ks
  /\ Forall (fun kv => Registry.cached s' (fst kv) (snd kv)) l.
Proof.
  revert s l. induction ks as [|k ks IH]; intros s l; simpl.
  - unfold ret. intros E. inversion E. auto.
  - unfold bind. destruct (Registry.get k s) as [s1 [v|e]] eqn:G;
      [|discriminate].
    pose proof (get_ok_cached _ _ _ _ G) as C.
    pose proof (get_all_preserves_cached ks s1 k v C) as C'.
    destruct (Registry.get_all ks s1) as [s2 [rest|e]] eqn:GA;
      [|discriminate].
    unfold ret. intros E. inversion E; subst. simpl in C'.
    destruct (IH _ _ GA) as [K F]. split; simpl; [congruence|].
    constructor; assumption.
Qed.

Lemma register_frame s k (f : Py W V) :
  Registry.world (fst (Registry.register k f s)) = Registry.world s
  /\ Registry.invocations (fst (Registry.register k f s))
     = Registry.invocations s.
Proof.
  unfold Registry.register.
  destruct (UniqueKeyDict.set k (LazyLoad.new f) (Registry.pool s)).
  split; reflexivity.
Qed.

Lemma register_unrealized s k (f : Py W V) :
  (forall k', Registry.realized s k' = false) ->
  forall k', Registry.realized (fst (Registry.register k f s)) k' = false.
Proof.
  intros U k'. specialize (U k').
  unfold Registry.register, UniqueKeyDict.set, Registry.realized in *.
  destruct (dict.contains (Registry.pool s) k); simpl; [assumption|].
  destruct (String.eqb_spec k' k) as [->|N].
  - rewrite get_set_same. reflexivity.
  - rewrite get_set_other by assumption. assumption.
Qed.

Lemma registrations_frame (l : list (string * Py W V)) s :
  let s' := fst (for_each l (fun '(k, f) => Registry.register k f) s) in
  Registry.world s' = Registry.world s
  /\ Registry.invocations s' = Registry.invocations s
  /\ ((forall k, Registry.realized s k = false) ->
      forall k, Registry.realized s' k = false).
Proof.
  revert s. induction l as [|[k f] l IH]; intros s; simpl.
  - auto.
  - unfold bind.
    destruct (register_frame s k f) as [Hw Hi].
    pose proof (register_unrealized s k f) as Hu.
    destruct (Registry.register k f s) as [s1 [[]|e]]; simpl in *.
    + destruct (IH s1) as (Hw' & Hi' & Hu').
      repeat split; try congruence. auto.
    + auto.
Qed.

End RegistryFacts.

(** ** C2: realization happens once *)

(** C2. The first lookup of a registered, unrealized key invokes the key's
    factory exactly once and returns what the factory returns.  When that is
    a value, it is cached: after any further lookups, of this key or of
    others, a lookup of the key returns the very same value, changes nothing,
    and the factory of the key has still been invoked exactly once more than
    before the first lookup. *)
Theorem lazy_realization_is_idempotent
    (W V : Type) (s : Registry.state W V) (k : string)
    (entry : LazyLoad.t W V) (w : W) (r : result V) :
  dict.get (Registry.pool s) k = Some entry ->
  LazyLoad.content entry = None ->
  LazyLoad.load_fnc entry (Registry.world s) = (w, r) ->
  let s1 := fst (Registry.get k s) in
  snd (Registry.get k s) = r
  /\ Registry.world s1 = w
  /\ Registry.invocations s1 = (Registry.invocations s ++ [k])%list
  /\ forall v, r = Ok v ->
       Registry.cached s1 k v
       /\ forall ks,
            let s2 := Registry.after_gets ks s1 in
            Registry.get k s2 = (s2, Ok v)
            /\ Registry.invocation_count s2 k
               = S (Registry.invocation_count s k).
Proof.
  intros E C L s1.
  assert (I : Registry.invocations s1 = (Registry.invocations s ++ [k])%list).
  { subst s1. unfold Registry.get. rewrite E, C, L. destruct r; reflexivity. }
  repeat split; try assumption.
  - unfold Registry.get. rewrite E, C, L. destruct r; reflexivity.
  - subst s1. unfold Registry.get. rewrite E, C, L. destruct r; reflexivity.
  - subst r. apply (get_ok_cached s). subst s1. unfold Registry.get.
    rewrite E, C, L. reflexivity.
  - apply get_cached. apply after_gets_cached. subst r.
    apply (get_ok_cached s). subst s1. unfold Registry.get.
    rewrite E, C, L. reflexivity.
  - assert (Registry.cached s1 k v) as Cv.
    { subst r. apply (get_ok_cached s). subst s1. unfold Registry.get.
      rewrite E, C, L. reflexivity. }
    destruct (after_gets_cached ks s1 k v Cv) as [_ N]. rewrite N.
    unfold Registry.invocation_count. rewrite I, count_snoc.
    rewrite String.eqb_refl. apply Nat.add_1_r.
Qed.

Lemma lazy_realization_is_idempotent_witness :
  let s := Registry.mk [("alexnet", LazyLoad.new counting);
                        ("vgg-16", LazyLoad.new counting)] 0%nat [] in
  let s2 := Registry.after_gets ["vgg-16"; "alexnet"]
              (fst (Registry.get "alexnet" s)) in
  Registry.get "alexnet" s2 = (s2, Ok 1%nat)
  /\ Registry.invocation_count s2 "alexnet" = 1%nat.
Proof.
  intros s s2.
  exact (proj2 (proj2 (proj2 (proj2
    (lazy_realization_is_idempotent nat nat s "alexnet"
       (LazyLoad.new counting) 1%nat (Ok 1%nat) eq_refl eq_refl eq_refl)))
    1%nat eq_refl) ["vgg-16"; "alexnet"]).
Defined.

(** ** C5: a failed realization is retried *)

(** C5. When the factory of a registered, unrealized key raises, the lookup
    raises the same error, the registry is as before and the key is still
    unrealized; the next lookup of the key invokes the factory again, on the
    world the failed call left behind, and returns what it returns; when that
    is a value the key is realized and caches it. *)
Theorem failed_realization_is_retried
    (W V : Type) (s : Registry.state W V) (k : string)
    (entry : LazyLoad.t W V) (w1 : W) (e : exn) :
  dict.get (Registry.pool s) k = Some entry ->
  LazyLoad.content entry = None ->
  LazyLoad.load_fnc entry (Registry.world s) = (w1, Raise e) ->
  let s1 := fst (Registry.get k s) in
  snd (Registry.get k s) = Raise e
  /\ Registry.pool s1 = Registry.pool s
  /\ Registry.realized s1 k = false
  /\ Registry.world s1 = w1
  /\ Registry.invocations s1 = (Registry.invocations s ++ [k])%list
  /\ forall w2 r, LazyLoad.load_fnc entry w1 = (w2, r) ->
       let s2 := fst (Registry.get k s1) in
       snd (Registry.get k s1) = r
       /\ Registry.world s2 = w2
       /\ Registry.invocations s2 = (Registry.invocations s ++ [k; k])%list
       /\ forall v, r = Ok v ->
            Registry.realized s2 k = true /\ Registry.cached s2 k v.
Proof.
  intros E C L s1.
  assert (S1 : s1 = Registry.mk (Registry.pool s) w1
                      (Registry.invocations s ++ [k])%list).
  { subst s1. unfold Registry.get. rewrite E, C, L. reflexivity. }
  split; [unfold Registry.get; rewrite E, C, L; reflexivity|].
  rewrite S1. simpl. repeat split.
  - unfold Registry.realized. simpl. rewrite E, C. reflexivity.
  - unfold Registry.get. simpl. rewrite E, C, H. destruct r; reflexivity.
  - unfold Registry.get. simpl. rewrite E, C, H. destruct r; reflexivity.
  - unfold Registry.get. simpl. rewrite E, C, H, <- app_assoc.
    destruct r; reflexivity.
  - subst r. unfold Registry.get, Registry.realized. simpl.
    rewrite E, C, H. simpl. rewrite get_set_same. reflexivity.
  - subst r. unfold Registry.get. simpl. rewrite E, C, H. simpl.
    eexists. simpl. rewrite get_set_same. split; reflexivity.
Qed.

Lemma failed_realization_is_retried_witness :
  let s := Registry.mk [("alexnet", LazyLoad.new flaky)] 0%nat [] in
  let s1 := fst (Registry.get "alexnet" s) in
  let s2 := fst (Registry.get "alexnet" s1) in
  snd (Registry.get "alexnet" s) = Raise (ExternalError "first call")
  /\ Registry.realized s1 "alexnet" = false
  /\ snd (Registry.get "alexnet" s1) = Ok 2%nat
  /\ Registry.realized s2 "alexnet" = true
  /\ Registry.invocations s2 = ["alexnet"; "alexnet"].
Proof.
  intros s s1 s2.
  destruct (failed_realization_is_retried nat nat s "alexnet"
              (LazyLoad.new flaky) 1%nat (ExternalError "first call")
              eq_refl eq_refl eq_refl) as (R1 & _ & U & _ & _ & Next).
  destruct (Next 2%nat (Ok 2%nat) eq_refl) as (R2 & _ & I & Done).
  destruct (Done 2%nat eq_refl) as [Rz _].
  repeat split; assumption.
Defined.

(** ** C6: enumeration is lazy, [items()] realizes *)

Section PopulationFacts.
Context {OS : Type} `{Platform OS}.

Lemma populate_frame (functions : dict.t factory)
    (s : Registry.state (World OS) handle) :
  let s' := fst (populate functions s) in
  Registry.world s' = Registry.world s
  /\ Registry.invocations s' = Registry.invocations s
  /\ ((forall k, Registry.realized s k = false) ->
      forall k, Registry.realized s' k = false).
Proof.
  unfold populate, dict.items. revert s.
  induction functions as [|[key function] l IH]; intros s; simpl.
  - auto.
  - unfold bind.
    destruct (register_frame s key (fun w => function w)) as [Hw Hi].
    pose proof (register_unrealized s key (fun w => function w)) as Hu.
    destruct (Registry.register key (fun w => function w) s)
      as [s1 [[]|e]]; simpl in *.
    + destruct (IH s1) as (Hw' & Hi' & Hu').
      repeat split; try congruence. auto.
    + auto.
Qed.

End PopulationFacts.

(** C6. Populating a registry invokes no factory and realizes nothing: the
    world and the record of invocations are as before, and so they are once
    [base_model_pool] is populated.  [keys()] returns the registered
    identifiers and changes nothing.  When [items()] returns, it has yielded
    every registered identifier, each with a value that its entry now
    caches. *)
Theorem enumeration_is_lazy_and_items_realize
    (OS : Type) (P : Platform OS) (o : OS) :
  (forall functions (s : Registry.state (World OS) handle),
     let s' := fst (populate functions s) in
     Registry.world s' = Registry.world s
     /\ Registry.invocations s' = Registry.invocations s
     /\ ((forall k, Registry.realized s k = false) ->
         forall k, Registry.realized s' k = false))
  /\ (Registry.world (imported o) = mkWorld o module_globals []
      /\ Registry.invocations (imported o) = []
      /\ forall k, Registry.realized (imported o) k = false)
  /\ (forall s : Registry.state (World OS) handle,
        Registry.keys s = (s, Ok (UniqueKeyDict.keys (Registry.pool s))))
  /\ (forall (s s' : Registry.state (World OS) handle) l,
        Registry.items s = (s', Ok l) ->
        map fst l = UniqueKeyDict.keys (Registry.pool s)
        /\ Forall (fun kv => Registry.cached s' (fst kv) (snd kv)) l).
Proof.
  split; [|split; [|split]].
  - intros functions s. apply populate_frame.
  - destruct (populate_frame _key_functions (before_population o))
      as (Hw & Hi & Hu).
    unfold imported. repeat split; try assumption.
    apply Hu. reflexivity.
  - reflexivity.
  - intros s s' l. unfold Registry.items, Registry.keys, bind.
    apply get_all_realizes.
Qed.

Lemma enumeration_is_lazy_and_items_realize_witness :
  let s := Registry.mk
             [("alexnet", LazyLoad.new (pytorch_model "alexnet" 224));
              ("vgg-16", LazyLoad.new (keras_model "vgg16" "VGG16" 224))]
             (mkWorld SimplePlatform.fresh unbound []) [] in
  map fst [("alexnet", PytorchWrapper "alexnet" 224);
           ("vgg-16", KerasWrapper "vgg16" "VGG16" 224)]
  = UniqueKeyDict.keys (Registry.pool s)
  /\ Forall (fun kv => Registry.cached (fst (Registry.items s)) (fst kv) (snd kv))
       [("alexnet", PytorchWrapper "alexnet" 224);
        ("vgg-16", KerasWrapper "vgg16" "VGG16" 224)].
Proof.
  intros s.
  exact (proj2 (proj2 (proj2
    (enumeration_is_lazy_and_items_realize _ SimplePlatform.platform
       SimplePlatform.fresh)))
    s (fst (Registry.items s)) _ eq_refl).
Defined.

(** ** C3: merging pools *)

Section MergeFacts.
Context {M : Type}.
Implicit Types (d : dict.t M) (pools : list (list (string * M))).

Lemma add_pool_app (xs ys : list (string * M)) d :
  add_pool (xs ++ ys) d = bind (add_pool xs) (fun _ => add_pool ys) d.
Proof. apply for_each_app. Qed.

Lemma add_pool_cons k (v : M) rest d :
  add_pool ((k, v) :: rest) d
  = if dict.contains d k then (d, Raise (DuplicateKey k))
    else add_pool rest (dict.set d k v).
Proof.
  unfold add_pool. simpl. unfold bind, UniqueKeyDict.set.
  destruct (dict.contains d k); reflexivity.
Qed.

Lemma merge_flat pools d :
  for_each pools add_pool d = add_pool (List.concat pools) d.
Proof.
  revert d. induction pools as [|p ps IH]; intros d; simpl.
  - reflexivity.
  - rewrite add_pool_app. unfold bind.
    destruct (add_pool p d) as [d1 [[]|e]].
    + apply IH.
    + reflexivity.
Qed.

Lemma add_pool_fresh items d :
  NoDup (dict.keys d ++ dict.keys items) ->
  add_pool items d = ((d ++ items)%list, Ok tt).
Proof.
  revert d. induction items as [|[k v] rest IH]; intros d N; simpl.
  - rewrite app_nil_r. reflexivity.
  - simpl in N. pose proof (NoDup_remove_2 _ _ _ N) as K.
    assert (C : dict.contains d k = false).
    { apply not_contains_In. intros I. apply K. apply in_or_app. auto. }
    rewrite add_pool_cons, C, (set_absent d k v C), IH.
    + rewrite <- app_assoc. reflexivity.
    + unfold dict.keys in *. rewrite map_app, <- app_assoc. exact N.
Qed.

Lemma add_pool_duplicate items d :
  NoDup (dict.keys d) ->
  ~ NoDup (dict.keys d ++ dict.keys items) ->
  exists before k v after,
    items = (before ++ (k, v) :: after)%list
    /\ In k (dict.keys (d ++ before)%list)
    /\ NoDup (dict.keys (d ++ before)%list)
    /\ add_pool items d = ((d ++ before)%list, Raise (DuplicateKey k)).
Proof.
  revert d. induction items as [|[k v] rest IH]; intros d N D; simpl.
  - exfalso. apply D. simpl. rewrite app_nil_r. exact N.
  - destruct (dict.contains d k) eqn:C.
    + exists [], k, v, rest. rewrite app_nil_r. repeat split; auto.
      * apply contains_In. exact C.
      * rewrite add_pool_cons, C. reflexivity.
    + assert (K : ~ In k (dict.keys d)) by (apply not_contains_In; exact C).
      assert (E : dict.keys (d ++ [(k, v)])%list = (dict.keys d ++ [k])%list).
      { unfold dict.keys. rewrite map_app. reflexivity. }
      destruct (IH (d ++ [(k, v)])%list)
        as (before & k' & v' & after & I & Hin & Hnd & Hrun).
      * rewrite E. apply NoDup_app; [exact N | repeat constructor; auto |].
        intros a Ia [<-|[]]. exact (K Ia).
      * rewrite E, <- app_assoc. exact D.
      * exists ((k, v) :: before), k', v', after.
        rewrite <- app_assoc in Hin, Hnd, Hrun. simpl in Hin, Hnd, Hrun.
        repeat split; auto.
        -- simpl. congruence.
        -- rewrite add_pool_cons, C, (set_absent d k v C). exact Hrun.
Qed.

Lemma get_In_NoDup d k v :
  NoDup (dict.keys d) -> In (k, v) d -> dict.get d k = Some v.
Proof.
  induction d as [|[k0 v0] d IH]; simpl; intros N I.
  - contradiction.
  - inversion N as [|? ? K N']; subst.
    destruct (String.eqb_spec k0 k) as [->|Ne].
    + destruct I as [I|I]; [congruence|].
      exfalso. apply K. apply (in_map fst) in I. exact I.
    + destruct I as [I|I]; [congruence | auto].
Qed.

End MergeFacts.

(** C3, as the code has it.  Merging succeeds exactly when no identifier
    occurs twice across the pools; the combined registry then holds every
    identifier of every pool with its entry.  Merging does not overwrite: at
    the first identifier that is already present the merge fails with a
    Duplicate-Key error for it, and the registry holds the entries inserted
    before, the earlier entry of that identifier among them.
    [brain_translated_pool] is this merge of its two pools. *)
Theorem merge_rejects_shared_identifiers
    (M : Type) (pools : list (list (string * M))) :
  let all := List.concat pools in
  (NoDup (dict.keys all) ->
     merge pools = (all, Ok tt)
     /\ forall pool k v, In pool pools -> In (k, v) pool ->
          dict.get (fst (merge pools)) k = Some v)
  /\ (~ NoDup (dict.keys all) ->
      exists before k v after,
        all = (before ++ (k, v) :: after)%list
        /\ In k (dict.keys before)
        /\ NoDup (dict.keys before)
        /\ merge pools = (before, Raise (DuplicateKey k)))
  /\ (forall ml_brain_pool cornet_brain_pool : list (string * M),
        brain_translated_pool ml_brain_pool cornet_brain_pool
        = merge [ml_brain_pool; cornet_brain_pool]).
Proof.
  intros all. subst all. unfold merge. split; [|split].
  - intros N. rewrite merge_flat.
    rewrite (add_pool_fresh (List.concat pools) UniqueKeyDict.empty N). simpl.
    split; [reflexivity|]. intros pool k v Ip Ikv.
    apply get_In_NoDup; [exact N|]. apply in_concat. eauto.
  - intros D. rewrite merge_flat.
    apply (add_pool_duplicate (List.concat pools) UniqueKeyDict.empty);
      [constructor | exact D].
  - intros ml cornet. unfold brain_translated_pool, fill_brain_translated_pool.
    simpl. unfold bind.
    destruct (add_pool ml UniqueKeyDict.empty) as [d1 [[]|e]]; [|reflexivity].
    destruct (add_pool cornet d1) as [d2 [[]|e]]; reflexivity.
Qed.

Lemma merge_rejects_shared_identifiers_witness :
  merge [[("x", 1)]; [("y", 3)]] = ([("x", 1); ("y", 3)], Ok tt)
  /\ exists before k v after,
       [("x", 1); ("x", 2); ("y", 3)] = (before ++ (k, v) :: after)%list
       /\ In k (dict.keys before)
       /\ NoDup (dict.keys before)
       /\ merge [[("x", 1)]; [("x", 2); ("y", 3)]]
          = (before, Raise (DuplicateKey k)).
Proof.
  split.
  - apply (proj1 (merge_rejects_shared_identifiers Z [[("x", 1)]; [("y", 3)]])).
    apply nodupb_NoDup. reflexivity.
  - apply (proj1 (proj2 (merge_rejects_shared_identifiers Z
                           [[("x", 1)]; [("x", 2); ("y", 3)]]))).
    simpl. intros N. inversion N as [|? ? K _]. apply K. left. reflexivity.
Defined.

Lemma merge_overwrite_counterexample :
  merge [[("x", 1)]; [("x", 2); ("y", 3)]]
    = ([("x", 1)], Raise (DuplicateKey "x"))
  /\ merge [[("x", 2); ("y", 3)]; [("x", 1)]]
    = ([("x", 2); ("y", 3)], Raise (DuplicateKey "x"))
  /\ ~ later_pool_wins [[("x", 1)]; [("x", 2); ("y", 3)]]
         (fst (merge [[("x", 1)]; [("x", 2); ("y", 3)]])).
Proof.
  split; [reflexivity | split; [reflexivity|]].
  intros L. specialize (L "x"). discriminate L.
Qed.

(** ** C7: the descriptor expansion *)

Lemma PyFloat_eqb_eq (x y : PyFloat.t) : PyFloat.eqb x y = true <-> x = y.
Proof.
  destruct x as [a], y as [b]. unfold PyFloat.eqb. simpl.
  rewrite Z.eqb_eq. split; congruence.
Qed.

Lemma net_name_override_iff (version : Z) (multiplier : PyFloat.t) :
  net_name_override version multiplier = true
  <-> In (version, multiplier) override_combinations.
Proof.
  unfold net_name_override, override_combinations, PyFloat.mem. simpl.
  rewrite !orb_true_iff, !andb_true_iff, !orb_true_iff, !Z.eqb_eq,
    !PyFloat_eqb_eq.
  split.
  - intros [[-> [->|[->|[->|F]]]]|[-> ->]]; auto; discriminate.
  - intros [E|[E|[E|[E|[]]]]]; inversion E; subst; auto 6.
Qed.

Section ExpansionFacts.
Context {OS : Type} `{Platform OS}.

Lemma _key_functions_eq :
  _key_functions
  = (static_key_functions
     ++ map (fun '(v, m, i) => (mobilenet_identifier v m i, mobilenet_lambda))
          mobilenet_table)%list.
Proof. reflexivity. Qed.

Lemma base_model_pool_eq (o : OS) :
  base_model_pool o
  = map (fun '(key, function) => (key, LazyLoad.new (fun w => function w)))
      _key_functions.
Proof. reflexivity. Qed.

End ExpansionFacts.

Lemma append_cancel_l (a x y : string) : a ++ x = a ++ y -> x = y.
Proof.
  induction a as [|c a IH]; simpl; intros E; [exact E|].
  injection E as E. exact (IH E).
Qed.

Lemma append_not_self (a b : string) : b <> "" -> a ++ b <> a.
Proof.
  intros N E. apply N. apply (append_cancel_l a).
  rewrite E. clear. induction a as [|c a IH]; simpl; congruence.
Qed.

(** C7, with the counts of the code.  The loop runs over 38 tuples and the
    dictionary display declares 25 keys.  After the expansion [_key_functions]
    has the declared keys followed by one key per tuple, the identifier
    [mobilenet_v{version}_{multiplier}_{image_size}], 63 keys without a
    duplicate, and each identifier of a tuple is bound to the lambda of the
    loop.  The internal name departs from the default [mobilenet_v{version}],
    by an underscore and a suffix after it, exactly for version 1 with
    multiplier 0.75, 0.5 or 0.25 and version 2 with multiplier 1.4; for every
    other combination it is the default.  What the suffix looks like is not
    part of the statement. *)
Theorem descriptor_expansion_has_no_duplicates (OS : Type) (P : Platform OS) :
  List.length mobilenet_table = 38%nat
  /\ List.length (static_key_functions (OS := OS)) = 25%nat
  /\ dict.keys (_key_functions (OS := OS))
     = (dict.keys (static_key_functions (OS := OS))
        ++ map (fun '(v, m, i) => mobilenet_identifier v m i) mobilenet_table)%list
  /\ List.length (dict.keys (_key_functions (OS := OS))) = 63%nat
  /\ NoDup (dict.keys (_key_functions (OS := OS)))
  /\ (forall v m i, In (v, m, i) mobilenet_table ->
        dict.get _key_functions (mobilenet_identifier v m i)
        = Some (mobilenet_lambda (OS := OS)))
  /\ (forall v m,
        (In (v, m) override_combinations ->
           (exists suffix,
              mobilenet_net_name v m
              = "mobilenet_v" ++ PyStr.of_int v ++ "_" ++ suffix)
           /\ mobilenet_net_name v m <> "mobilenet_v" ++ PyStr.of_int v)
        /\ (~ In (v, m) override_combinations ->
           mobilenet_net_name v m = "mobilenet_v" ++ PyStr.of_int v)).
Proof.
  split; [reflexivity|]. split; [reflexivity|]. split; [reflexivity|].
  split; [reflexivity|]. split; [apply nodupb_NoDup; reflexivity|]. split.
  - intros v m i I. rewrite _key_functions_eq. simpl in I.
    repeat (destruct I as [I|I]; [inversion I; subst; reflexivity|]).
    contradiction.
  - intros v m. split; intros I; unfold mobilenet_net_name.
    + apply net_name_override_iff in I. rewrite I. split.
      * eexists. reflexivity.
      * intros E. apply append_cancel_l in E. revert E.
        apply append_not_self. discriminate.
    + destruct (net_name_override v m) eqn:E; [|reflexivity].
      apply net_name_override_iff in E. contradiction.
Qed.

Lemma descriptor_expansion_has_no_duplicates_witness :
  dict.get _key_functions (mobilenet_identifier 1 0.75%f 160)
    = Some (mobilenet_lambda (OS := SimplePlatform.os_state))
  /\ mobilenet_net_name 1 0.75%f <> "mobilenet_v" ++ PyStr.of_int 1
  /\ mobilenet_net_name 2 0.75%f = "mobilenet_v" ++ PyStr.of_int 2.
Proof.
  pose proof (descriptor_expansion_has_no_duplicates _ SimplePlatform.platform)
    as (_ & _ & _ & _ & _ & Bound & Name).
  split; [|split].
  - apply Bound. simpl. tauto.
  - apply (proj1 (Name 1 0.75%f)). simpl. tauto.
  - apply (proj2 (Name 2 0.75%f)). simpl.
    intros [E|[E|[E|[E|[]]]]]; discriminate E.
Defined.

Lemma descriptor_counts_counterexample :
  List.length mobilenet_table <> 37%nat
  /\ List.length (static_key_functions (OS := SimplePlatform.os_state)) <> 24%nat
  /\ mobilenet_net_name 1 0.75%f <> "mobilenet_v1_075".
Proof. repeat split; discriminate. Qed.

(** The internal names the loop computes, written out. *)
Example mobilenet_net_names :
  map (fun '(v, m) => mobilenet_net_name v m)
    [(1, 1.0%f); (1, 0.75%f); (1, 0.5%f); (1, 0.25%f); (2, 1.4%f); (2, 0.35%f)]
  = ["mobilenet_v1"; "mobilenet_v1_75.0"; "mobilenet_v1_50.0";
     "mobilenet_v1_25.0"; "mobilenet_v2_140.0"; "mobilenet_v2"].
Proof. reflexivity. Qed.

(** ** C1: what the factories of the expansion construct *)

(** C1, as the code has it: every factory generated by the expansion loop,
    whatever its tuple, constructs the model of the last tuple.  Its entry in
    [base_model_pool] is unrealized, and in a world where the module globals
    are as the import left them, realizing it is the call
    [TFSlimModel.init("mobilenet_v2_0.35_96", preprocessing_type='inception',
    image_size=96, net_name="mobilenet_v2")]. *)
Theorem mobilenet_factories_construct_the_last_tuple
    (OS : Type) (P : Platform OS) (o : OS) (v : Z) (m : PyFloat.t) (i : Z) :
  In (v, m, i) mobilenet_table ->
  exists entry,
    dict.get (base_model_pool o) (mobilenet_identifier v m i) = Some entry
    /\ LazyLoad.content entry = None
    /\ forall w, globals w = module_globals (OS := OS) ->
         LazyLoad.load_fnc entry w
         = TFSlimModel.init "mobilenet_v2_0.35_96" "inception" 96
             (Some "mobilenet_v2") 1 64 w.
Proof.
  intros I.
  assert (E : dict.get (base_model_pool o) (mobilenet_identifier v m i)
              = Some (LazyLoad.new (fun w => mobilenet_lambda w))).
  { simpl in I.
    repeat (destruct I as [I|I]; [inversion I; subst; reflexivity|]).
    contradiction. }
  eexists. split; [exact E|]. split; [reflexivity|].
  intros [o' g tr] G. simpl in G. subst g. reflexivity.
Qed.

Lemma mobilenet_factories_construct_the_last_tuple_witness :
  exists entry,
    dict.get (base_model_pool SimplePlatform.fresh)
      (mobilenet_identifier 1 1.0%f 224) = Some entry
    /\ LazyLoad.content entry = None
    /\ forall w, globals w = module_globals ->
         LazyLoad.load_fnc entry w
         = TFSlimModel.init "mobilenet_v2_0.35_96" "inception" 96
             (Some "mobilenet_v2") 1 64 w.
Proof.
  apply (mobilenet_factories_construct_the_last_tuple
           _ SimplePlatform.platform SimplePlatform.fresh 1 1.0%f 224).
  simpl. tauto.
Defined.

(** Realizing [mobilenet_v1_1.0_224] on the small platform: the handle is
    the one of [mobilenet_v2_0.35_96]. *)
Example realizing_mobilenet_v1_1_0_224 :
  snd (Registry.get "mobilenet_v1_1.0_224" (imported SimplePlatform.fresh))
  = Ok (TensorflowSlimWrapper "mobilenet_v2_0.35_96"
          (network "mobilenet_v2" 1001 (map_fn "inception" 96 (placeholder 64)))
          (network "mobilenet_v2" 1001 (map_fn "inception" 96 (placeholder 64)))
          (placeholder 64)
          (mkSession
             (Some ("/home/user/.candidate_models/model-weights/slim/mobilenet_v2_0.35_96/mobilenet_v2_0.35_96.ckpt",
                    true)))
          64 1).
Proof. vm_compute. reflexivity. Qed.

(** ** Strings and paths *)

Lemma string_app_assoc (a b c : string) : (a ++ b) ++ c = a ++ b ++ c.
Proof. induction a as [|x a IH]; simpl; [reflexivity | rewrite IH; reflexivity]. Qed.

Lemma prefix_app (p s : string) :
  String.prefix p s = true -> exists r, s = p ++ r.
Proof.
  revert s. induction p as [|c p IH]; intros s.
  - exists s. reflexivity.
  - destruct s as [|c' s]; simpl; [discriminate|].
    destruct (ascii_dec c c') as [->|]; [|discriminate].
    intros E. destruct (IH _ E) as [r ->]. exists r. reflexivity.
Qed.

Lemma prefix_of_app (p r : string) : String.prefix p (p ++ r) = true.
Proof.
  induction p as [|c p IH]; simpl.
  - destruct r; reflexivity.
  - destruct (ascii_dec c c); [exact IH | congruence].
Qed.

Lemma split_head_eq (sep s : string) :
  PyStr.split_head sep s
  = if String.prefix sep s then ""
    else match s with
         | "" => ""
         | String c s' => String c (PyStr.split_head sep s')
         end.
Proof. destruct s; reflexivity. Qed.

Lemma contains_eq (sep s : string) :
  PyStr.contains sep s
  = if String.prefix sep s then true
    else match s with
         | "" => false
         | String _ s' => PyStr.contains sep s'
         end.
Proof. destruct s; reflexivity. Qed.

Lemma split_head_truncated (sep s : string) :
  truncated_at_first sep s (PyStr.split_head sep s).
Proof.
  unfold truncated_at_first. induction s as [|c s IH];
    rewrite split_head_eq, contains_eq;
    destruct (String.prefix sep _) eqn:E;
    try (left; destruct (prefix_app _ _ E) as [r R]; exists r;
         split; [exact R | intros; apply Nat.le_0_l]).
  - right. split; reflexivity.
  - destruct IH as [(rest & R & L)|[N R]].
    + left. exists rest. split; [simpl; congruence|].
      intros [|c' p] r Hp.
      * simpl in Hp. rewrite Hp, prefix_of_app in E. discriminate.
      * simpl in Hp. injection Hp as _ Hs. simpl.
        apply le_n_S. exact (L p r Hs).
    + right. split; [exact N | congruence].
Qed.

Lemma endswith_slash_false (a : string) :
  PyStr.endswith (a ++ "model-weights") "/" = false.
Proof.
  induction a as [|c a IH]; [reflexivity|].
  cbn [append PyStr.endswith]. rewrite IH.
  cbn [String.eqb]. destruct (Ascii.eqb c "/"); [|reflexivity].
  destruct a; reflexivity.
Qed.

Lemma join_model_weights_slim (a : string) :
  posixpath.join a ["model-weights"; "slim"]
  = posixpath.join a ["model-weights/slim"].
Proof.
  unfold posixpath.join. simpl. unfold posixpath.join1 at 2 3.
  change (PyStr.startswith "model-weights" "/") with false.
  change (PyStr.startswith "model-weights/slim" "/") with false.
  cbv iota.
  assert (J : forall x, posixpath.join1 (x ++ "model-weights") "slim"
                        = x ++ "model-weights/slim").
  { intros x. unfold posixpath.join1.
    change (PyStr.startswith "slim" "/") with false. cbv iota.
    rewrite endswith_slash_false.
    assert (N : String.eqb (x ++ "model-weights") "" = false)
      by (destruct x; reflexivity).
    rewrite N. simpl orb. cbv iota.
    rewrite string_app_assoc. reflexivity. }
  destruct (String.eqb a "" || PyStr.endswith a "/")%bool.
  - apply J.
  - rewrite <- (string_app_assoc a "/" "model-weights"), J.
    apply string_app_assoc.
Qed.

Section WeightFacts.
Context {OS : Type} `{Platform OS}.

Lemma cache_root_eq (o : OS) : TFSlimModel.cache_root o = cache_root_spec o.
Proof.
  unfold TFSlimModel.cache_root, cache_root_spec, getenv_default.
  destruct (getenv o "CM_TSLIM_WEIGHTS_DIR"); [reflexivity|].
  destruct (getenv o "CM_HOME"); apply join_model_weights_slim.
Qed.

Lemma extends_ret {A : Type} (a : A) : extends (OS := OS) (ret a).
Proof. intros w. exists []. simpl. rewrite app_nil_r. reflexivity. Qed.

Lemma extends_raise {A : Type} (e : exn) : extends (OS := OS) (raise (A := A) e).
Proof. intros w. exists []. simpl. rewrite app_nil_r. reflexivity. Qed.

Lemma extends_emit (e : event) : extends (OS := OS) (emit e).
Proof. intros w. exists [e]. reflexivity. Qed.

Lemma extends_os_read {A : Type} (f : OS -> A) : extends (OS := OS) (os_read f).
Proof. intros w. exists []. simpl. rewrite app_nil_r. reflexivity. Qed.

Lemma extends_os_run {A : Type} (c : Py OS A) : extends (OS := OS) (os_run c).
Proof.
  intros w. exists []. unfold os_run. destruct (c (os w)). simpl.
  rewrite app_nil_r. reflexivity.
Qed.

Lemma extends_assert (b : bool) (text : string) : extends (OS := OS) (assert b text).
Proof. destruct b; [apply extends_ret | apply extends_raise]. Qed.

Lemma extends_bind {A B : Type} (c : Py (World OS) A) (k : A -> Py (World OS) B) :
  extends c -> (forall a, extends (k a)) -> extends (bind c k).
Proof.
  intros Hc Hk w. unfold bind. destruct (Hc w) as [r1 E1].
  destruct (c w) as [w1 [a|e]]; simpl in *.
  - destruct (Hk a w1) as [r2 E2]. exists (r1 ++ r2)%list.
    rewrite E2, E1, app_assoc. reflexivity.
  - exists r1. exact E1.
Qed.

Lemma extends_if {A : Type} (b : bool) (c1 c2 : Py (World OS) A) :
  extends c1 -> extends c2 -> extends (OS := OS) (if b then c1 else c2).
Proof. destruct b; auto. Qed.

Create HintDb trace.
#[local] Hint Resolve extends_ret extends_raise extends_emit extends_os_read
  extends_os_run extends_assert extends_bind extends_if : trace.

Lemma _find_model_weights_extends (model_name : string) :
  extends (OS := OS) (TFSlimModel._find_model_weights model_name).
Proof. unfold TFSlimModel._find_model_weights. auto 20 with trace. Qed.

Lemma _restore_imagenet_weights_extends (name : string) (sess : session) :
  extends (OS := OS) (TFSlimModel._restore_imagenet_weights name sess).
Proof.
  unfold TFSlimModel._restore_imagenet_weights.
  auto 20 using _find_model_weights_extends with trace.
Qed.

End WeightFacts.

(** ** C8: the preprocessing kind is checked first *)

(** C8. [TFSlimModel.init] with a preprocessing type other than [vgg] and
    [inception] fails on the assertion of [_init_preprocessing]; the only
    external call made before it is the creation of the placeholder, so no
    network is built, no session opened, no weights looked for and no handle
    produced.  With [vgg] or [inception] the assertion holds:
    [_init_preprocessing] returns the preprocessed tensor, and [init] goes on
    to build the network and to open the session. *)
Theorem unsupported_preprocessing_fails_fast
    (OS : Type) (P : Platform OS)
    (identifier preprocessing_type : string) (image_size : Z)
    (net_name : option string) (labels_offset batch_size : Z) (w : World OS) :
  (preprocessing_type <> "vgg" -> preprocessing_type <> "inception" ->
     TFSlimModel.init identifier preprocessing_type image_size net_name
       labels_offset batch_size w
     = (mkWorld (os w) (globals w) (trace w ++ [tf_placeholder batch_size]),
        Raise (AssertionError "preprocessing_type in preprocessing_types")))
  /\ (preprocessing_type = "vgg" \/ preprocessing_type = "inception" ->
      TFSlimModel._init_preprocessing (placeholder batch_size)
        preprocessing_type image_size w
      = (mkWorld (os w) (globals w)
           (trace w ++ [tf_map_fn preprocessing_type image_size]),
         Ok (map_fn preprocessing_type image_size (placeholder batch_size)))
      /\ exists rest,
           trace (fst (TFSlimModel.init identifier preprocessing_type
                         image_size net_name labels_offset batch_size w))
           = (trace w
              ++ [tf_placeholder batch_size;
                  tf_map_fn preprocessing_type image_size;
                  nets_factory_get_network_fn
                    (TFSlimModel.or_identifier net_name identifier)
                    (labels_offset + 1000);
                  model_ctr_call (TFSlimModel.or_identifier net_name identifier);
                  tf_Session]
              ++ rest)%list).
Proof.
  split.
  - intros Nv Ni.
    assert (C : dict.contains TFSlimModel.preprocessing_types preprocessing_type
                = false).
    { unfold dict.contains, TFSlimModel.preprocessing_types, dict.get.
      destruct (String.eqb_spec "vgg" preprocessing_type); [congruence|].
      destruct (String.eqb_spec "inception" preprocessing_type); [congruence|].
      reflexivity. }
    unfold TFSlimModel.init, TFSlimModel._init_preprocessing.
    unfold bind at 1 2 3. rewrite C. reflexivity.
  - intros Supported.
    assert (C : dict.contains TFSlimModel.preprocessing_types preprocessing_type
                = true) by (destruct Supported; subst; reflexivity).
    split.
    + unfold TFSlimModel._init_preprocessing, bind. rewrite C. reflexivity.
    + unfold TFSlimModel.init, TFSlimModel._init_preprocessing.
      set (restore := TFSlimModel._restore_imagenet_weights identifier
                        (mkSession None)).
      unfold bind, emit, assert, ret. rewrite C. simpl.
      match goal with
      | |- context [restore ?w5] =>
          destruct (_restore_imagenet_weights_extends identifier
                      (mkSession None) w5) as [rest E];
          fold restore in E; destruct (restore w5) as [w6 [sess|e]]
      end; simpl in *; exists rest; rewrite E, <- !app_assoc; reflexivity.
Qed.

Lemma unsupported_preprocessing_fails_fast_witness :
  snd (TFSlimModel.init "inception_v1" "caffe" 224 None 1 64
         (mkWorld SimplePlatform.fresh unbound []))
  = Raise (AssertionError "preprocessing_type in preprocessing_types")
  /\ snd (TFSlimModel._init_preprocessing (placeholder 64) "vgg" 224
            (mkWorld SimplePlatform.fresh unbound []))
     = Ok (map_fn "vgg" 224 (placeholder 64)).
Proof.
  pose proof (unsupported_preprocessing_fails_fast _ SimplePlatform.platform
                "inception_v1" "caffe" 224 None 1 64
                (mkWorld SimplePlatform.fresh unbound [])) as [Bad _].
  pose proof (unsupported_preprocessing_fails_fast _ SimplePlatform.platform
                "resnet_v1_50" "vgg" 224 None 0 64
                (mkWorld SimplePlatform.fresh unbound [])) as [_ Good].
  split.
  - rewrite Bad; [reflexivity | discriminate | discriminate].
  - destruct Good as [G _]; [left; reflexivity|]. rewrite G. reflexivity.
Defined.

(** ** C9 and C10: the weight cache *)

Section CacheFacts.
Context {OS : Type} `{Platform OS}.

(** [_find_model_weights] once the cache directory is known to exist. *)
Lemma _find_model_weights_present (model_name : string) (w : World OS) :
  let model_path :=
    posixpath.join (TFSlimModel.cache_root (os w)) [model_name] in
  let pattern := posixpath.join model_path ["*.ckpt*"] in
  isdir (os w) model_path = true ->
  TFSlimModel._find_model_weights model_name w
  = (mkWorld (os w) (globals w) (trace w ++ [glob_glob pattern]),
     match glob (os w) pattern with
     | [] => Raise (AssertionError "len(fnames) > 0")
     | f :: _ => Ok (PyStr.split_head ".ckpt" f ++ ".ckpt")
     end).
Proof.
  intros model_path pattern D.
  unfold TFSlimModel._find_model_weights, bind, os_read, emit.
  cbn [os globals trace]. fold model_path. rewrite D. fold pattern.
  cbn [negb os globals trace]. unfold ret.
  destruct (glob (os w) pattern); reflexivity.
Qed.

(** [_find_model_weights] when the cache directory is missing and both the
    creation and the download succeed. *)
Lemma _find_model_weights_missing (model_name : string) (w : World OS) o1 o2 :
  let model_path :=
    posixpath.join (TFSlimModel.cache_root (os w)) [model_name] in
  let pattern := posixpath.join model_path ["*.ckpt*"] in
  isdir (os w) model_path = false ->
  makedirs model_path (os w) = (o1, Ok tt) ->
  download_folder ("slim/" ++ model_name) model_path o1 = (o2, Ok tt) ->
  TFSlimModel._find_model_weights model_name w
  = (mkWorld o2 (globals w)
       (trace w ++ [os_makedirs model_path;
                    s3_download_folder ("slim/" ++ model_name) model_path;
                    glob_glob pattern]),
     match glob o2 pattern with
     | [] => Raise (AssertionError "len(fnames) > 0")
     | f :: _ => Ok (PyStr.split_head ".ckpt" f ++ ".ckpt")
     end).
Proof.
  intros model_path pattern D Mk Dl.
  unfold TFSlimModel._find_model_weights, bind, os_read, os_run, emit.
  cbn [os globals trace]. fold model_path. rewrite D. fold pattern.
  cbn [negb os globals trace]. rewrite Mk.
  cbn [os globals trace]. rewrite Dl.
  cbn [os globals trace]. rewrite <- !app_assoc.
  destruct (glob o2 pattern); reflexivity.
Qed.

End CacheFacts.

(** C9, for the names the code joins below the root.  The cache root is
    the weights-directory override if set, else the home-directory override
    joined with [model-weights/slim], else [~/.candidate_models] joined with
    it.  For a model name that does not start with [/], the cache directory is
    the root followed by the name, with a [/] between them unless the root is
    empty or ends with one.  If the directory does not exist,
    [_find_model_weights] creates it and then downloads the folder
    [slim/<name>] into it; the next and last external call is the glob.  If the
    directory exists, the glob is the only external call: nothing is created
    or fetched, and the operating-system state is as before. *)
Theorem weights_are_fetched_iff_cache_directory_is_missing
    (OS : Type) (P : Platform OS) (model_name : string) (w : World OS) :
  PyStr.startswith model_name "/" = false ->
  let root := cache_root_spec (os w) in
  let model_path := posixpath.join root [model_name] in
  let pattern := posixpath.join model_path ["*.ckpt*"] in
  let after := fst (TFSlimModel._find_model_weights model_name w) in
  model_path
  = (if (String.eqb root "" || PyStr.endswith root "/")%bool
     then root ++ model_name
     else root ++ "/" ++ model_name)
  /\ (isdir (os w) model_path = false ->
     forall o1 o2,
       makedirs model_path (os w) = (o1, Ok tt) ->
       download_folder ("slim/" ++ model_name) model_path o1 = (o2, Ok tt) ->
       os after = o2
       /\ trace after
          = (trace w ++ [os_makedirs model_path;
                         s3_download_folder ("slim/" ++ model_name) model_path;
                         glob_glob pattern])%list)
  /\ (isdir (os w) model_path = true ->
      os after = os w
      /\ trace after = (trace w ++ [glob_glob pattern])%list).
Proof.
  intros Rel root model_path pattern after.
  subst after pattern model_path root. split.
  { unfold posixpath.join, posixpath.join1. simpl. rewrite Rel. reflexivity. }
  rewrite <- cache_root_eq. split.
  - intros D o1 o2 Mk Dl.
    rewrite (_find_model_weights_missing model_name w o1 o2 D Mk Dl).
    split; reflexivity.
  - intros D. rewrite (_find_model_weights_present model_name w D).
    split; reflexivity.
Qed.

Lemma weights_are_fetched_iff_cache_directory_is_missing_witness :
  trace (fst (TFSlimModel._find_model_weights "inception_v1"
                (mkWorld SimplePlatform.fresh unbound [])))
  = [os_makedirs "/home/user/.candidate_models/model-weights/slim/inception_v1";
     s3_download_folder "slim/inception_v1"
       "/home/user/.candidate_models/model-weights/slim/inception_v1";
     glob_glob
       "/home/user/.candidate_models/model-weights/slim/inception_v1/*.ckpt*"]
  /\ trace (fst (TFSlimModel._find_model_weights "inception_v1"
                   (mkWorld SimplePlatform.empty_cache unbound [])))
     = [glob_glob
          "/home/user/.candidate_models/model-weights/slim/inception_v1/*.ckpt*"].
Proof.
  split.
  - exact (proj2 (proj1 (proj2
             (weights_are_fetched_iff_cache_directory_is_missing
                _ SimplePlatform.platform "inception_v1"
                (mkWorld SimplePlatform.fresh unbound []) eq_refl))
             eq_refl _ _ eq_refl eq_refl)).
  - exact (proj2 (proj2 (proj2
             (weights_are_fetched_iff_cache_directory_is_missing
                _ SimplePlatform.platform "inception_v1"
                (mkWorld SimplePlatform.empty_cache unbound []) eq_refl))
             eq_refl)).
Defined.

Lemma cache_directory_below_the_root_counterexample :
  let o := SimplePlatform.mk [("CM_TSLIM_WEIGHTS_DIR", "/data")] "/home/user"
             [("/data/srv/weights", ["model.ckpt"]);
              ("/data//srv/weights", ["model.ckpt"])]
             [("slim//srv/weights", ["model.ckpt"])] in
  cache_root_spec o = "/data"
  /\ isdir o "/data/srv/weights" = true
  /\ isdir o ("/data" ++ "/" ++ "/srv/weights") = true
  /\ trace (fst (TFSlimModel._find_model_weights "/srv/weights"
                   (mkWorld o unbound [])))
     = [os_makedirs "/srv/weights";
        s3_download_folder "slim//srv/weights" "/srv/weights";
        glob_glob "/srv/weights/*.ckpt*"].
Proof. repeat split; reflexivity. Qed.

(** C10. Once the cache directory exists, [_find_model_weights] asserts
    that the glob for [*.ckpt*] in it is not empty.  For a directory that
    existed before and has no match, the call fails on the assertion after the
    glob alone: nothing is created or fetched.  When there is a match, the
    call returns the first match truncated at its first [.ckpt], with [.ckpt]
    appended.  The same holds for the directory as the download left it. *)
Theorem checkpoint_presence_is_asserted
    (OS : Type) (P : Platform OS) (model_name : string) (w : World OS) :
  let model_path :=
    posixpath.join (TFSlimModel.cache_root (os w)) [model_name] in
  let pattern := posixpath.join model_path ["*.ckpt*"] in
  (isdir (os w) model_path = true ->
     (glob (os w) pattern = [] ->
        TFSlimModel._find_model_weights model_name w
        = (mkWorld (os w) (globals w) (trace w ++ [glob_glob pattern]),
           Raise (AssertionError "len(fnames) > 0")))
     /\ (forall f others, glob (os w) pattern = f :: others ->
           exists head,
             truncated_at_first ".ckpt" f head
             /\ snd (TFSlimModel._find_model_weights model_name w)
                = Ok (head ++ ".ckpt")))
  /\ (isdir (os w) model_path = false ->
      forall o1 o2,
        makedirs model_path (os w) = (o1, Ok tt) ->
        download_folder ("slim/" ++ model_name) model_path o1 = (o2, Ok tt) ->
        (glob o2 pattern = [] ->
           snd (TFSlimModel._find_model_weights model_name w)
           = Raise (AssertionError "len(fnames) > 0"))
        /\ (forall f others, glob o2 pattern = f :: others ->
              exists head,
                truncated_at_first ".ckpt" f head
                /\ snd (TFSlimModel._find_model_weights model_name w)
                   = Ok (head ++ ".ckpt"))).
Proof.
  intros model_path pattern. subst pattern model_path. split.
  - intros D. rewrite (_find_model_weights_present model_name w D). split.
    + intros G. rewrite G. reflexivity.
    + intros f others G. rewrite G. exists (PyStr.split_head ".ckpt" f).
      split; [apply split_head_truncated | reflexivity].
  - intros D o1 o2 Mk Dl.
    rewrite (_find_model_weights_missing model_name w o1 o2 D Mk Dl). split.
    + intros G. rewrite G. reflexivity.
    + intros f others G. rewrite G. exists (PyStr.split_head ".ckpt" f).
      split; [apply split_head_truncated | reflexivity].
Qed.

Lemma checkpoint_presence_is_asserted_witness :
  TFSlimModel._find_model_weights "inception_v1"
    (mkWorld SimplePlatform.empty_cache unbound [])
  = (mkWorld SimplePlatform.empty_cache unbound
       [glob_glob
          "/home/user/.candidate_models/model-weights/slim/inception_v1/*.ckpt*"],
     Raise (AssertionError "len(fnames) > 0"))
  /\ exists head,
       truncated_at_first ".ckpt"
         "/home/user/.candidate_models/model-weights/slim/mobilenet_v2_0.35_96/mobilenet_v2_0.35_96.ckpt.index"
         head
       /\ snd (TFSlimModel._find_model_weights "mobilenet_v2_0.35_96"
                 (mkWorld SimplePlatform.fresh unbound []))
          = Ok (head ++ ".ckpt").
Proof.
  split.
  - exact (proj1 (proj1 (checkpoint_presence_is_asserted
             _ SimplePlatform.platform "inception_v1"
             (mkWorld SimplePlatform.empty_cache unbound []))
             eq_refl) eq_refl).
  - exact (proj2 (proj2 (checkpoint_presence_is_asserted
             _ SimplePlatform.platform "mobilenet_v2_0.35_96"
             (mkWorld SimplePlatform.fresh unbound []))
             eq_refl _ _ eq_refl eq_refl) _ _ eq_refl).
Defined.

(** The restore path on the small platform. *)
Example find_model_weights_restore_path :
  snd (TFSlimModel._find_model_weights "mobilenet_v2_0.35_96"
         (mkWorld SimplePlatform.fresh unbound []))
  = Ok "/home/user/.candidate_models/model-weights/slim/mobilenet_v2_0.35_96/mobilenet_v2_0.35_96.ckpt".
Proof. reflexivity. Qed.

(** A download that fails leaves the directory it was to fill: the next
    lookup finds the directory, does not fetch, and fails on the assertion. *)
Example failed_download_leaves_an_empty_cache :
  let s1 := fst (Registry.get "inception_v2" (imported SimplePlatform.fresh)) in
  snd (Registry.get "inception_v2" (imported SimplePlatform.fresh))
  = Raise (ExternalError "download failed")
  /\ snd (Registry.get "inception_v2" s1)
     = Raise (AssertionError "len(fnames) > 0")
  /\ Registry.invocations (fst (Registry.get "inception_v2" s1))
     = ["inception_v2"; "inception_v2"].
Proof. vm_compute. repeat split; reflexivity. Qed.

(** * Further properties of the module-level code *)

(** ** The expansion loop over an arbitrary table *)

Section ExpansionLoop.
Context {OS : Type} `{Platform OS}.

Lemma keys_set {V : Type} (d : dict.t V) k (v : V) :
  dict.keys (dict.set d k v)
  = if dict.contains d k then dict.keys d else (dict.keys d ++ [k])%list.
Proof.
  destruct (dict.contains d k) eqn:C.
  - revert C. unfold dict.contains, dict.keys.
    induction d as [|[k0 v0] d IH]; simpl; intros C; [discriminate|].
    destruct (String.eqb k0 k); simpl; [reflexivity | rewrite IH; auto].
  - rewrite (set_absent d k v C). unfold dict.keys. rewrite map_app.
    reflexivity.
Qed.

Lemma NoDup_keys_set {V : Type} (d : dict.t V) k (v : V) :
  NoDup (dict.keys d) -> NoDup (dict.keys (dict.set d k v)).
Proof.
  intros N. rewrite keys_set. destruct (dict.contains d k) eqn:C; [exact N|].
  apply NoDup_app; [exact N | repeat constructor; auto |].
  intros a Ia [<-|[]]. apply not_contains_In in C. exact (C Ia).
Qed.

Lemma expansion_snoc rows row (m : Globals * dict.t factory) :
  fold_left expansion_step (rows ++ [row])%list m
  = (globals_of_row row,
     dict.set (snd (fold_left expansion_step rows m))
       (let '(v, mu, i) := row in mobilenet_identifier v mu i)
       mobilenet_lambda).
Proof.
  rewrite fold_left_app. simpl. destruct row as [[v mu] i]. reflexivity.
Qed.

End ExpansionLoop.

Lemma expansion_binds {OS : Type} `{Platform OS}
    (rows : list (Z * PyFloat.t * Z)) (g0 : Globals) (d0 : dict.t factory) :
  NoDup (dict.keys d0) ->
  NoDup (dict.keys (snd (fold_left expansion_step rows (g0, d0))))
  /\ forall v m i, In (v, m, i) rows ->
       dict.get (snd (fold_left expansion_step rows (g0, d0)))
         (mobilenet_identifier v m i)
       = Some mobilenet_lambda.
Proof.
  intros N0. induction rows as [|row rows IH] using rev_ind; simpl.
  - split; [exact N0 | intros v m i []].
  - destruct IH as (N & B). rewrite expansion_snoc. simpl.
    destruct row as [[v' m'] i']. split.
    + apply NoDup_keys_set. exact N.
    + intros v m i I. apply in_app_or in I. destruct I as [I|[E|[]]].
      * destruct (String.eqb_spec (mobilenet_identifier v m i)
                    (mobilenet_identifier v' m' i')) as [->|Ne].
        -- apply get_set_same.
        -- rewrite get_set_other by exact Ne. apply B. exact I.
      * inversion E; subst. apply get_set_same.
Qed.

(** X1. Whatever tuples the expansion loop runs over, with multipliers the
    float model is exact for, and whatever the dictionary holds before: the
    keys stay free of duplicates, the identifier of every tuple is bound to
    the lambda of the loop, also where it was a key before (the assignment
    overwrites without an error), and every other key keeps its binding. *)
Theorem expansion_loop_over_any_table
    (OS : Type) (P : Platform OS) (rows : list (Z * PyFloat.t * Z))
    (g0 : Globals) (d0 : dict.t (factory (OS := OS))) :
  Forall (fun '(_, m, _) => exact_multiplier m) rows ->
  NoDup (dict.keys d0) ->
  let d := snd (fold_left expansion_step rows (g0, d0)) in
  NoDup (dict.keys d)
  /\ (forall v m i, In (v, m, i) rows ->
        dict.get d (mobilenet_identifier v m i) = Some mobilenet_lambda)
  /\ (forall k,
        ~ In k (map (fun '(v, m, i) => mobilenet_identifier v m i) rows) ->
        dict.get d k = dict.get d0 k).
Proof.
  intros _ N0 d. subst d.
  destruct (expansion_binds rows g0 d0 N0) as [N B].
  split; [exact N|]. split; [exact B|]. clear N B.
  induction rows as [|row rows IH] using rev_ind; simpl.
  - reflexivity.
  - intros k Nk. rewrite expansion_snoc. simpl.
    destruct row as [[v' m'] i'].
    rewrite map_app, in_app_iff in Nk. simpl in Nk.
    rewrite get_set_other by (intros ->; tauto). apply IH. tauto.
Qed.

Lemma expansion_loop_over_any_table_witness :
  dict.get
    (snd (fold_left expansion_step [(1, 1.0%f, 224); (1, 1.0%f, 224)]
            (unbound,
             [("mobilenet_v1_1.0_224",
               pytorch_model (OS := SimplePlatform.os_state) "alexnet" 224)])))
    "mobilenet_v1_1.0_224"
  = Some mobilenet_lambda.
Proof.
  apply (proj1 (proj2 (expansion_loop_over_any_table
           _ SimplePlatform.platform [(1, 1.0%f, 224); (1, 1.0%f, 224)] unbound
           [("mobilenet_v1_1.0_224", pytorch_model "alexnet" 224)]
           ltac:(repeat (constructor;
                         [unfold exact_multiplier; simpl;
                          split; [lia | reflexivity]|]);
                 constructor)
           ltac:(repeat constructor; simpl; tauto))) 1 1.0%f 224).
  simpl. tauto.
Defined.

(** ** The population loop over an arbitrary dictionary *)

Section PopulationLoop.
Context {OS : Type} `{Platform OS}.

Lemma populate_cons key (function : factory) rest
    (s : Registry.state (World OS) handle) :
  populate ((key, function) :: rest) s
  = if dict.contains (Registry.pool s) key
    then (s, Raise (DuplicateKey key))
    else populate rest
           (Registry.mk
              (dict.set (Registry.pool s) key
                 (LazyLoad.new (fun w => function w)))
              (Registry.world s) (Registry.invocations s)).
Proof.
  unfold populate, dict.items. simpl.
  unfold bind, Registry.register, UniqueKeyDict.set.
  destruct (dict.contains (Registry.pool s) key); [|reflexivity].
  destruct s; reflexivity.
Qed.

Lemma populate_fresh (functions : dict.t factory)
    (s : Registry.state (World OS) handle) :
  NoDup (dict.keys (Registry.pool s) ++ dict.keys functions) ->
  populate functions s
  = (Registry.mk
       (Registry.pool s
        ++ map (fun '(key, function) =>
                  (key, LazyLoad.new (fun w => function w))) functions)%list
       (Registry.world s) (Registry.invocations s),
     Ok tt).
Proof.
  revert s. induction functions as [|[k f] rest IH]; intros s N.
  - simpl. rewrite app_nil_r. destruct s; reflexivity.
  - simpl in N. pose proof (NoDup_remove_2 _ _ _ N) as K.
    assert (C : dict.contains (Registry.pool s) k = false).
    { apply not_contains_In. intros I. apply K. apply in_or_app. auto. }
    rewrite populate_cons, C, (set_absent _ k _ C), IH; simpl.
    + rewrite <- app_assoc. reflexivity.
    + unfold dict.keys in *. rewrite map_app, <- app_assoc. exact N.
Qed.

End PopulationLoop.

(** X3. Populating an empty registry from a dictionary, whose keys are
    distinct, never raises: the registry then has the keys of the dictionary
    in the same order, every entry is unrealized, and the factory of an entry
    calls the function that the dictionary holds under the same key. *)
Theorem population_binds_each_function
    (OS : Type) (P : Platform OS) (functions : dict.t (factory (OS := OS)))
    (s : Registry.state (World OS) handle) :
  NoDup (dict.keys functions) ->
  Registry.pool s = UniqueKeyDict.empty ->
  let s' := fst (populate functions s) in
  snd (populate functions s) = Ok tt
  /\ UniqueKeyDict.keys (Registry.pool s') = dict.keys functions
  /\ forall key function, In (key, function) functions ->
       exists entry,
         dict.get (Registry.pool s') key = Some entry
         /\ LazyLoad.content entry = None
         /\ forall w, LazyLoad.load_fnc entry w = function w.
Proof.
  intros N E. rewrite populate_fresh by (rewrite E; exact N).
  rewrite E. simpl.
  assert (K : forall l : dict.t (factory (OS := OS)),
            dict.keys (map (fun '(key, function) =>
                              (key, LazyLoad.new (fun w => function w))) l)
            = dict.keys l).
  { induction l as [|[k f] l IH]; simpl; [reflexivity | rewrite IH; reflexivity]. }
  split; [reflexivity|]. split; [apply K|].
  intros key function I.
  exists (LazyLoad.new (fun w => function w)). repeat split.
  apply get_In_NoDup; [rewrite K; exact N|].
  apply (in_map (fun '(key, function) =>
                   (key, LazyLoad.new (fun w => function w))) _ _ I).
Qed.

Lemma population_binds_each_function_witness :
  let functions :=
    [("alexnet", pytorch_model (OS := SimplePlatform.os_state) "alexnet" 224);
     ("vgg-16", keras_model "vgg16" "VGG16" 224)] in
  let s := Registry.mk UniqueKeyDict.empty
             (mkWorld SimplePlatform.fresh unbound []) [] in
  snd (populate functions s) = Ok tt
  /\ UniqueKeyDict.keys (Registry.pool (fst (populate functions s)))
     = ["alexnet"; "vgg-16"].
Proof.
  intros functions s.
  destruct (population_binds_each_function _ SimplePlatform.platform
              functions s ltac:(apply nodupb_NoDup; reflexivity) eq_refl)
    as (R & K & _).
  split; [exact R | exact K].
Defined.

(** ** What realizing a model leaves untouched *)

Section GlobalsFacts.
Context {OS : Type} `{Platform OS}.

Lemma keeps_ret {A : Type} (a : A) : keeps_globals (OS := OS) (ret a).
Proof. intros w. reflexivity. Qed.

Lemma keeps_raise {A : Type} (e : exn) :
  keeps_globals (OS := OS) (raise (A := A) e).
Proof. intros w. reflexivity. Qed.

Lemma keeps_emit (e : event) : keeps_globals (OS := OS) (emit e).
Proof. intros w. reflexivity. Qed.

Lemma keeps_os_read {A : Type} (f : OS -> A) :
  keeps_globals (OS := OS) (os_read f).
Proof. intros w. reflexivity. Qed.

Lemma keeps_os_run {A : Type} (c : Py OS A) :
  keeps_globals (OS := OS) (os_run c).
Proof. intros w. unfold os_run. destruct (c (os w)). reflexivity. Qed.

Lemma keeps_global {A : Type} (name : string) (f : Globals -> option A) :
  keeps_globals (OS := OS) (global name f).
Proof. intros w. unfold global. destruct (f (globals w)); reflexivity. Qed.

Lemma keeps_assert (b : bool) (text : string) :
  keeps_globals (OS := OS) (assert b text).
Proof. destruct b; [apply keeps_ret | apply keeps_raise]. Qed.

Lemma keeps_bind {A B : Type} (c : Py (World OS) A) (k : A -> Py (World OS) B) :
  keeps_globals c -> (forall a, keeps_globals (k a)) ->
  keeps_globals (bind c k).
Proof.
  intros Hc Hk w. unfold bind. specialize (Hc w).
  destruct (c w) as [w1 [a|e]]; simpl in *.
  - rewrite (Hk a w1). exact Hc.
  - exact Hc.
Qed.

Lemma keeps_if {A : Type} (b : bool) (c1 c2 : Py (World OS) A) :
  keeps_globals c1 -> keeps_globals c2 ->
  keeps_globals (OS := OS) (if b then c1 else c2).
Proof. destruct b; auto. Qed.

Lemma extends_global {A : Type} (name : string) (f : Globals -> option A) :
  extends (OS := OS) (global name f).
Proof.
  intros w. exists []. unfold global. destruct (f (globals w)); simpl;
    rewrite app_nil_r; reflexivity.
Qed.

Create HintDb frame.
#[local] Hint Resolve keeps_ret keeps_raise keeps_emit keeps_os_read
  keeps_os_run keeps_global keeps_assert keeps_bind keeps_if
  extends_ret extends_raise extends_emit extends_os_read extends_os_run
  extends_global extends_assert extends_bind extends_if : frame.

Lemma init_frame (identifier preprocessing_type : string) (image_size : Z)
    (net_name : option string) (labels_offset batch_size : Z) :
  keeps_globals (OS := OS)
    (TFSlimModel.init identifier preprocessing_type image_size net_name
       labels_offset batch_size)
  /\ extends (OS := OS)
       (TFSlimModel.init identifier preprocessing_type image_size net_name
          labels_offset batch_size).
Proof.
  unfold TFSlimModel.init, TFSlimModel._init_preprocessing,
    TFSlimModel._restore_imagenet_weights, TFSlimModel._find_model_weights.
  split; auto 30 with frame.
Qed.

Lemma pytorch_model_frame (function : string) (image_size : Z) :
  keeps_globals (OS := OS) (pytorch_model function image_size)
  /\ extends (OS := OS) (pytorch_model function image_size).
Proof. unfold pytorch_model. split; auto with frame. Qed.

Lemma keras_model_frame (module model_function : string) (image_size : Z) :
  keeps_globals (OS := OS) (keras_model module model_function image_size)
  /\ extends (OS := OS) (keras_model module model_function image_size).
Proof. unfold keras_model. split; auto with frame. Qed.

Lemma mobilenet_lambda_frame :
  keeps_globals (OS := OS) mobilenet_lambda
  /\ extends (OS := OS) mobilenet_lambda.
Proof.
  unfold mobilenet_lambda.
  split; repeat (first [apply keeps_bind | apply extends_bind]; [|intro]);
    auto with frame; apply init_frame.
Qed.

Lemma _key_functions_frame :
  Forall (fun kf => keeps_globals (snd kf) /\ extends (snd kf))
    (_key_functions (OS := OS)).
Proof.
  rewrite _key_functions_eq. apply Forall_app. split.
  - unfold static_key_functions.
    repeat (constructor;
            [first [apply init_frame | apply pytorch_model_frame
                   | apply keras_model_frame]|]).
    constructor.
  - apply Forall_forall. intros [k f] I. apply in_map_iff in I.
    destruct I as ([[v m] i] & E & _). inversion E; subst.
    apply mobilenet_lambda_frame.
Qed.

Lemma get_In {V : Type} (d : dict.t V) k (v : V) :
  dict.get d k = Some v -> In (k, v) d.
Proof.
  induction d as [|[k0 v0] d IH]; simpl; [discriminate|].
  destruct (String.eqb_spec k0 k) as [->|]; intros E.
  - inversion E. auto.
  - auto.
Qed.

(** Every factory in the pool keeps the globals, and they are [g]. *)
Lemma get_keeps_globals (s : Registry.state (World OS) handle) k g :
  (forall k' e, dict.get (Registry.pool s) k' = Some e ->
                keeps_globals (LazyLoad.load_fnc e)) ->
  globals (Registry.world s) = g ->
  (forall k' e, dict.get (Registry.pool (fst (Registry.get k s))) k' = Some e ->
                keeps_globals (LazyLoad.load_fnc e))
  /\ globals (Registry.world (fst (Registry.get k s))) = g.
Proof.
  intros Hp Hg. destruct (get_cases s k) as [E|entry v E C|entry w v E C L
                                            |entry w e E C L]; simpl.
  - auto.
  - auto.
  - split.
    + intros k' e'. destruct (String.eqb_spec k' k) as [->|Ne].
      * rewrite get_set_same. intros I. inversion I; subst. simpl.
        exact (Hp _ _ E).
      * rewrite get_set_other by exact Ne. apply Hp.
    + pose proof (Hp _ _ E (Registry.world s)) as K. rewrite L in K.
      simpl in K. congruence.
  - split; [exact Hp|].
    pose proof (Hp _ _ E (Registry.world s)) as K. rewrite L in K.
    simpl in K. congruence.
Qed.

End GlobalsFacts.

(** X4. Realizing models never rebinds the module globals: every function of
    [_key_functions] leaves them as they are and only adds to the record of
    external calls, so after any sequence of lookups in the imported
    registry the globals are still the ones the import left. *)
Theorem lookups_keep_the_module_globals
    (OS : Type) (P : Platform OS) (o : OS) (ks : list string) :
  Forall (fun kf => keeps_globals (snd kf) /\ extends (snd kf))
    (_key_functions (OS := OS))
  /\ globals (Registry.world (Registry.after_gets ks (imported o)))
     = module_globals (OS := OS).
Proof.
  split; [apply _key_functions_frame|].
  assert (I : (forall k' e,
                 dict.get (Registry.pool (imported o)) k' = Some e ->
                 keeps_globals (LazyLoad.load_fnc e))
              /\ globals (Registry.world (imported o))
                 = module_globals (OS := OS)).
  { split.
    - intros k' e G. apply get_In in G.
      change (Registry.pool (imported o)) with (base_model_pool o) in G.
      rewrite base_model_pool_eq in G. apply in_map_iff in G.
      destruct G as ([k f] & E & I). inversion E; subst. simpl.
      pose proof (_key_functions_frame (OS := OS)) as F.
      rewrite Forall_forall in F. destruct (F _ I) as [K _].
      intros w. apply (K w).
    - destruct (populate_frame _key_functions (before_population o))
        as (Hw & _). unfold imported. rewrite Hw. reflexivity. }
  revert I. generalize (imported o). induction ks as [|k ks IH];
    intros s [Hp Hg]; simpl.
  - exact Hg.
  - apply IH. apply get_keeps_globals; assumption.
Qed.

(** X2. Whatever non-empty table the expansion loop runs over, with
    multipliers the float model is exact for: afterwards the globals
    [identifier], [image_size] and [net_name] are those of the last tuple,
    and once the registry is populated from the dictionary, the entry under
    the identifier of any tuple of the table, realized while the globals are
    as the loop left them, is the call of [TFSlimModel.init] with the
    identifier, image size and internal name of the last tuple. *)
Theorem every_expansion_factory_builds_the_last_tuple
    (OS : Type) (P : Platform OS) (rows : list (Z * PyFloat.t * Z))
    (version : Z) (multiplier : PyFloat.t) (image_size : Z)
    (g0 : Globals) (d0 : dict.t (factory (OS := OS)))
    (s : Registry.state (World OS) handle) :
  let table := (rows ++ [(version, multiplier, image_size)])%list in
  Forall (fun '(_, m, _) => exact_multiplier m) table ->
  NoDup (dict.keys d0) ->
  Registry.pool s = UniqueKeyDict.empty ->
  let g := fst (fold_left expansion_step table (g0, d0)) in
  let d := snd (fold_left expansion_step table (g0, d0)) in
  let s' := fst (populate d s) in
  g_identifier g = Some (mobilenet_identifier version multiplier image_size)
  /\ g_image_size g = Some image_size
  /\ g_net_name g = Some (mobilenet_net_name version multiplier)
  /\ forall v m i, In (v, m, i) table ->
       exists entry,
         dict.get (Registry.pool s') (mobilenet_identifier v m i) = Some entry
         /\ LazyLoad.content entry = None
         /\ forall (o : OS) (tr : list event),
              LazyLoad.load_fnc entry (mkWorld o g tr)
              = TFSlimModel.init
                  (mobilenet_identifier version multiplier image_size)
                  "inception" image_size
                  (Some (mobilenet_net_name version multiplier)) 1 64
                  (mkWorld o g tr).
Proof.
  intros table _ N0 E g d s'.
  assert (G : g = globals_of_row (version, multiplier, image_size))
    by (subst g table; rewrite expansion_snoc; reflexivity).
  destruct (expansion_binds table g0 d0 N0) as [N B]. fold d in N, B.
  split; [rewrite G; reflexivity|]. split; [rewrite G; reflexivity|].
  split; [rewrite G; reflexivity|].
  intros v m i I. specialize (B v m i I).
  exists (LazyLoad.new (fun w => mobilenet_lambda w)).
  split; [|split; [reflexivity|]].
  - assert (K : forall l : dict.t (factory (OS := OS)),
              dict.keys (map (fun '(key, function) =>
                                (key, LazyLoad.new (fun w => function w))) l)
              = dict.keys l).
    { induction l as [|[k f] l IH]; simpl; [reflexivity|].
      rewrite IH. reflexivity. }
    subst s'. rewrite populate_fresh by (rewrite E; exact N).
    rewrite E. simpl. apply get_In_NoDup.
    + rewrite K. exact N.
    + apply (in_map (fun '(key, function) =>
                       (key, LazyLoad.new (fun w => function w)))
               _ _ (get_In _ _ _ B)).
  - intros o tr. rewrite G. reflexivity.
Qed.

Lemma every_expansion_factory_builds_the_last_tuple_witness :
  exists entry,
    dict.get
      (Registry.pool
         (fst (populate
                 (snd (fold_left expansion_step
                         [(1, 1.0%f, 224); (2, 0.35%f, 96)] (unbound, [])))
                 (Registry.mk UniqueKeyDict.empty
                    (mkWorld SimplePlatform.fresh unbound []) []))))
      (mobilenet_identifier 1 1.0%f 224)
    = Some entry
    /\ LazyLoad.content entry = None
    /\ forall (o : SimplePlatform.os_state) (tr : list event),
         LazyLoad.load_fnc entry
           (mkWorld o
              (fst (fold_left expansion_step
                      [(1, 1.0%f, 224); (2, 0.35%f, 96)] (unbound, [])))
              tr)
         = TFSlimModel.init "mobilenet_v2_0.35_96" "inception" 96
             (Some "mobilenet_v2") 1 64
             (mkWorld o
                (fst (fold_left expansion_step
                        [(1, 1.0%f, 224); (2, 0.35%f, 96)] (unbound, [])))
                tr).
Proof.
  apply (proj2 (proj2 (proj2
           (every_expansion_factory_builds_the_last_tuple
              _ SimplePlatform.platform [(1, 1.0%f, 224)] 2 0.35%f 96
              unbound []
              (Registry.mk UniqueKeyDict.empty
                 (mkWorld SimplePlatform.fresh unbound []) [])
              ltac:(repeat (constructor;
                            [unfold exact_multiplier; simpl;
                             split; [lia | reflexivity]|]);
                    constructor)
              ltac:(constructor) eq_refl)))
           1 1.0%f 224).
  simpl. tauto.
Defined.

(** ** [TFSlimModel.init] step by step *)

Section InitFacts.
Context {OS : Type} `{Platform OS}.

(** With a supported preprocessing type, [init] is the construction, then
    the weight lookup under the identifier, then the restore. *)
Lemma init_supported (identifier preprocessing_type : string) (image_size : Z)
    (net_name : option string) (labels_offset batch_size : Z) (w : World OS) :
  dict.contains TFSlimModel.preprocessing_types preprocessing_type = true ->
  TFSlimModel.init identifier preprocessing_type image_size net_name
    labels_offset batch_size w
  = match TFSlimModel._find_model_weights identifier
            (mkWorld (os w) (globals w)
               (trace w ++ construction_events identifier preprocessing_type
                             image_size net_name labels_offset batch_size))
    with
    | (w', Ok restore_path) =>
        (mkWorld (os w') (globals w')
           (trace w' ++ [restorer_restore restore_path]),
         Ok (TensorflowSlimWrapper identifier
               (network (TFSlimModel.or_identifier net_name identifier)
                  (labels_offset + 1000)
                  (map_fn preprocessing_type image_size
                     (placeholder batch_size)))
               (network (TFSlimModel.or_identifier net_name identifier)
                  (labels_offset + 1000)
                  (map_fn preprocessing_type image_size
                     (placeholder batch_size)))
               (placeholder batch_size)
               (mkSession
                  (Some (restore_path, PyStr.startswith identifier "mobilenet")))
               batch_size labels_offset))
    | (w', Raise e) => (w', Raise e)
    end.
Proof.
  intros C.
  unfold TFSlimModel.init, TFSlimModel._init_preprocessing,
    TFSlimModel._restore_imagenet_weights, construction_events.
  set (find := TFSlimModel._find_model_weights identifier).
  unfold bind, emit, assert, ret. rewrite C.
  destruct (PyStr.startswith identifier "mobilenet");
    cbn [os globals trace fst snd]; rewrite <- !app_assoc;
    cbn [app]; destruct (find _) as [w' [restore_path|e]]; reflexivity.
Qed.

End InitFacts.

(** X5. With [vgg] or [inception] preprocessing, when the weight lookup
    under the identifier returns a path, [init] returns the wrapper of the
    identifier: its network is the one named by [net_name], or by the
    identifier when no name is given, with [labels_offset + 1000] classes on
    the preprocessed placeholder, and its session is restored from that path,
    through the moving averages exactly for an identifier that starts with
    [mobilenet].  The network is built and the session opened before the
    weights are looked up; the restore is the last external call. *)
Theorem init_builds_then_restores
    (OS : Type) (P : Platform OS)
    (identifier preprocessing_type : string) (image_size : Z)
    (net_name : option string) (labels_offset batch_size : Z)
    (w w' : World OS) (restore_path : string) :
  preprocessing_type = "vgg" \/ preprocessing_type = "inception" ->
  TFSlimModel._find_model_weights identifier
    (mkWorld (os w) (globals w)
       (trace w ++ construction_events identifier preprocessing_type
                     image_size net_name labels_offset batch_size))
  = (w', Ok restore_path) ->
  TFSlimModel.init identifier preprocessing_type image_size net_name
    labels_offset batch_size w
  = (mkWorld (os w') (globals w') (trace w' ++ [restorer_restore restore_path]),
     Ok (TensorflowSlimWrapper identifier
           (network (TFSlimModel.or_identifier net_name identifier)
              (labels_offset + 1000)
              (map_fn preprocessing_type image_size (placeholder batch_size)))
           (network (TFSlimModel.or_identifier net_name identifier)
              (labels_offset + 1000)
              (map_fn preprocessing_type image_size (placeholder batch_size)))
           (placeholder batch_size)
           (mkSession
              (Some (restore_path, PyStr.startswith identifier "mobilenet")))
           batch_size labels_offset)).
Proof.
  intros S F. rewrite init_supported by (destruct S; subst; reflexivity).
  rewrite F. reflexivity.
Qed.

Lemma init_builds_then_restores_witness :
  snd (TFSlimModel.init "resnet_v1_50" "vgg" 224 None 0 64
         (mkWorld
            (SimplePlatform.mk [] "/home/user" []
               [("slim/resnet_v1_50", ["resnet_v1_50.ckpt"])])
            unbound []))
  = Ok (TensorflowSlimWrapper "resnet_v1_50"
          (network "resnet_v1_50" 1000 (map_fn "vgg" 224 (placeholder 64)))
          (network "resnet_v1_50" 1000 (map_fn "vgg" 224 (placeholder 64)))
          (placeholder 64)
          (mkSession
             (Some ("/home/user/.candidate_models/model-weights/slim/resnet_v1_50/resnet_v1_50.ckpt",
                    false)))
          64 0).
Proof.
  refine (f_equal snd (init_builds_then_restores _ SimplePlatform.platform
            "resnet_v1_50" "vgg" 224 None 0 64
            (mkWorld
               (SimplePlatform.mk [] "/home/user" []
                  [("slim/resnet_v1_50", ["resnet_v1_50.ckpt"])])
               unbound [])
            (fst (TFSlimModel._find_model_weights "resnet_v1_50"
                    (mkWorld
                       (SimplePlatform.mk [] "/home/user" []
                          [("slim/resnet_v1_50", ["resnet_v1_50.ckpt"])])
                       unbound
                       (construction_events "resnet_v1_50" "vgg" 224 None 0 64))))
            "/home/user/.candidate_models/model-weights/slim/resnet_v1_50/resnet_v1_50.ckpt"
            _ _)).
  - left. reflexivity.
  - vm_compute. reflexivity.
Defined.

(** X6. With [vgg] or [inception] preprocessing, when the weight lookup
    under the identifier raises, [init] raises the same error and stops in
    the state the lookup left: the network is built and the session opened,
    nothing is restored and no wrapper is made. *)
Theorem init_fails_with_the_weight_lookup
    (OS : Type) (P : Platform OS)
    (identifier preprocessing_type : string) (image_size : Z)
    (net_name : option string) (labels_offset batch_size : Z)
    (w w' : World OS) (e : exn) :
  preprocessing_type = "vgg" \/ preprocessing_type = "inception" ->
  TFSlimModel._find_model_weights identifier
    (mkWorld (os w) (globals w)
       (trace w ++ construction_events identifier preprocessing_type
                     image_size net_name labels_offset batch_size))
  = (w', Raise e) ->
  TFSlimModel.init identifier preprocessing_type image_size net_name
    labels_offset batch_size w
  = (w', Raise e)
  /\ exists rest,
       trace w'
       = (trace w
          ++ construction_events identifier preprocessing_type image_size
               net_name labels_offset batch_size
          ++ rest)%list.
Proof.
  intros S F. rewrite init_supported by (destruct S; subst; reflexivity).
  rewrite F. split; [reflexivity|].
  destruct (_find_model_weights_extends identifier
              (mkWorld (os w) (globals w)
                 (trace w ++ construction_events identifier preprocessing_type
                               image_size net_name labels_offset batch_size)))
    as [rest E].
  rewrite F in E. simpl in E. exists rest. rewrite E, app_assoc. reflexivity.
Qed.

Lemma init_fails_with_the_weight_lookup_witness :
  snd (TFSlimModel.init "inception_v2" "inception" 224 None 1 64
         (mkWorld SimplePlatform.fresh unbound []))
  = Raise (ExternalError "download failed").
Proof.
  refine (f_equal snd (proj1 (init_fails_with_the_weight_lookup
            _ SimplePlatform.platform "inception_v2" "inception" 224 None 1 64
            (mkWorld SimplePlatform.fresh unbound [])
            (fst (TFSlimModel._find_model_weights "inception_v2"
                    (mkWorld SimplePlatform.fresh unbound
                       (construction_events "inception_v2" "inception" 224
                          None 1 64))))
            (ExternalError "download failed") _ _))).
  - right. reflexivity.
  - vm_compute. reflexivity.
Defined.

(** X7. [_restore_imagenet_weights] creates the saver before it looks for the
    weights, whether or not they are found: over the moving averages for a
    name that starts with [mobilenet], over the plain variables otherwise.
    Every identifier the expansion loop can build starts with [mobilenet]. *)
Theorem saver_uses_moving_averages_for_mobilenet
    (OS : Type) (P : Platform OS) (name : string) (sess : session)
    (w : World OS) :
  (exists rest,
     trace (fst (TFSlimModel._restore_imagenet_weights name sess w))
     = (trace w
        ++ (if PyStr.startswith name "mobilenet"
            then [ema_variables_to_restore; tf_train_Saver true]
            else [tf_train_Saver false])
        ++ rest)%list)
  /\ forall version multiplier image_size,
       PyStr.startswith
         (mobilenet_identifier version multiplier image_size) "mobilenet"
       = true.
Proof.
  split; [|reflexivity].
  unfold TFSlimModel._restore_imagenet_weights.
  set (find := TFSlimModel._find_model_weights name).
  unfold bind, emit, ret.
  destruct (PyStr.startswith name "mobilenet"); cbn [os globals trace fst snd];
    match goal with
    | |- context [find ?w0] =>
        destruct (_find_model_weights_extends name w0) as [rest E];
        fold find in E; destruct (find w0) as [w1 [p|e]]
    end; cbn [os globals trace fst snd] in *;
    first [ exists (rest ++ [restorer_restore p])%list | exists rest ];
    rewrite E; cbn [trace]; rewrite <- !app_assoc; reflexivity.
Qed.

(** X8. An empty [net_name], and a [net_name] equal to the identifier, are
    the same as no [net_name]: the network is looked up under the
    identifier. *)
Theorem init_empty_net_name_is_the_identifier
    (OS : Type) (P : Platform OS)
    (identifier preprocessing_type : string) (image_size : Z)
    (labels_offset batch_size : Z) (w : World OS) :
  TFSlimModel.init identifier preprocessing_type image_size (Some "")
    labels_offset batch_size w
  = TFSlimModel.init identifier preprocessing_type image_size None
      labels_offset batch_size w
  /\ TFSlimModel.init identifier preprocessing_type image_size
       (Some identifier) labels_offset batch_size w
     = TFSlimModel.init identifier preprocessing_type image_size None
         labels_offset batch_size w.
Proof.
  split; [reflexivity|].
  assert (E : TFSlimModel.or_identifier (Some identifier) identifier
              = TFSlimModel.or_identifier None identifier).
  { simpl. destruct (String.eqb identifier ""); reflexivity. }
  unfold TFSlimModel.init. rewrite E. reflexivity.
Qed.

(** ** More on the weight cache *)

Lemma endswith_app (a p : string) : PyStr.endswith (a ++ p) p = true.
Proof.
  induction a as [|c a IH].
  - simpl. destruct p; simpl; rewrite ?Ascii.eqb_refl, ?String.eqb_refl;
      reflexivity.
  - cbn [append PyStr.endswith]. rewrite IH.
    destruct (String.eqb (String c (a ++ p)) p); reflexivity.
Qed.

Lemma string_length_app (a b : string) :
  String.length (a ++ b) = (String.length a + String.length b)%nat.
Proof. induction a as [|c a IH]; simpl; [reflexivity | rewrite IH; reflexivity]. Qed.

Lemma contains_length (sep s : string) :
  PyStr.contains sep s = true -> (String.length sep <= String.length s)%nat.
Proof.
  induction s as [|c s IH]; rewrite contains_eq;
    destruct (String.prefix sep _) eqn:E; intros C;
    try (destruct (prefix_app _ _ E) as [r R]; rewrite R;
         rewrite string_length_app; apply Nat.le_add_r);
    try discriminate.
  simpl. apply Nat.le_le_succ_r. apply IH. exact C.
Qed.

Lemma prefix_app_long (sep a b : string) :
  (String.length sep <= String.length a)%nat ->
  String.prefix sep (a ++ b) = String.prefix sep a.
Proof.
  revert a. induction sep as [|c sep IH]; intros a L.
  - destruct a; simpl; destruct b; reflexivity.
  - destruct a as [|c' a]; simpl in L; [inversion L|].
    simpl. destruct (ascii_dec c c'); [|reflexivity].
    apply IH. apply le_S_n. exact L.
Qed.

Lemma split_head_app (sep a b : string) :
  PyStr.contains sep a = true ->
  PyStr.split_head sep (a ++ b) = PyStr.split_head sep a.
Proof.
  induction a as [|c a IH]; intros C.
  - pose proof (contains_length _ _ C) as L. destruct sep; [|inversion L].
    rewrite !split_head_eq. simpl. destruct b; reflexivity.
  - rewrite (split_head_eq sep (String c a ++ b)), (split_head_eq sep (String c a)).
    rewrite prefix_app_long by (apply contains_length; exact C).
    destruct (String.prefix sep (String c a)) eqn:E; [reflexivity|].
    rewrite contains_eq, E in C. simpl. rewrite IH by exact C. reflexivity.
Qed.

Section CacheMore.
Context {OS : Type} `{Platform OS}.

Lemma join_absolute (root name : string) :
  PyStr.startswith name "/" = true -> posixpath.join root [name] = name.
Proof.
  intros A. unfold posixpath.join, posixpath.join1. simpl. rewrite A.
  reflexivity.
Qed.

(** Whatever the platform does, a path that is returned is cut from the
    first match of the glob in the final state. *)
Lemma _find_model_weights_returns (model_name : string) (w : World OS) path :
  snd (TFSlimModel._find_model_weights model_name w) = Ok path ->
  exists f others,
    glob (os (fst (TFSlimModel._find_model_weights model_name w)))
      (posixpath.join
         (posixpath.join (TFSlimModel.cache_root (os w)) [model_name])
         ["*.ckpt*"])
    = f :: others
    /\ path = PyStr.split_head ".ckpt" f ++ ".ckpt".
Proof.
  unfold TFSlimModel._find_model_weights, bind, os_read, os_run, emit.
  cbn [os globals trace].
  set (model_path :=
         posixpath.join (TFSlimModel.cache_root (os w)) [model_name]).
  set (pattern := posixpath.join model_path ["*.ckpt*"]).
  destruct (isdir (os w) model_path); cbn [negb os globals trace].
  - unfold ret. cbn [os globals trace].
    destruct (glob (os w) pattern) as [|f others] eqn:G; simpl;
      [discriminate|].
    intros E. inversion E. exists f, others. rewrite G. auto.
  - destruct (makedirs model_path (os w)) as [o1 [[]|e1]];
      cbn [os globals trace]; [|discriminate].
    destruct (download_folder ("slim/" ++ model_name) model_path o1)
      as [o2 [[]|e2]]; cbn [os globals trace]; [|discriminate].
    destruct (glob o2 pattern) as [|f others] eqn:G; simpl; [discriminate|].
    intros E. inversion E. exists f, others. rewrite G. auto.
Qed.

End CacheMore.

(** X9. When the cache directory is missing and cannot be created, nothing is
    downloaded.  When it is created and the download raises, the error is
    raised after the two calls, without a glob; the directory stays, so on a
    platform where it then exists and holds no checkpoint the next call does
    not fetch again: it globs and fails on the assertion. *)
Theorem failed_fetch_is_not_retried
    (OS : Type) (P : Platform OS) (model_name : string) (w : World OS)
    (o1 : OS) (e : exn) :
  let model_path :=
    posixpath.join (TFSlimModel.cache_root (os w)) [model_name] in
  let pattern := posixpath.join model_path ["*.ckpt*"] in
  isdir (os w) model_path = false ->
  (makedirs model_path (os w) = (o1, Raise e) ->
     TFSlimModel._find_model_weights model_name w
     = (mkWorld o1 (globals w) (trace w ++ [os_makedirs model_path]), Raise e))
  /\ (makedirs model_path (os w) = (o1, Ok tt) ->
      forall o2,
        download_folder ("slim/" ++ model_name) model_path o1 = (o2, Raise e) ->
        let w1 :=
          mkWorld o2 (globals w)
            (trace w ++ [os_makedirs model_path;
                         s3_download_folder ("slim/" ++ model_name) model_path]) in
        TFSlimModel._find_model_weights model_name w = (w1, Raise e)
        /\ (TFSlimModel.cache_root o2 = TFSlimModel.cache_root (os w) ->
            isdir o2 model_path = true ->
            glob o2 pattern = [] ->
            TFSlimModel._find_model_weights model_name w1
            = (mkWorld o2 (globals w) (trace w1 ++ [glob_glob pattern]),
               Raise (AssertionError "len(fnames) > 0")))).
Proof.
  intros model_path pattern D. split.
  - intros Mk.
    unfold TFSlimModel._find_model_weights, bind, os_read, os_run, emit.
    cbn [os globals trace]. fold model_path. rewrite D.
    cbn [negb os globals trace]. rewrite Mk. reflexivity.
  - intros Mk o2 Dl w1. split.
    + unfold TFSlimModel._find_model_weights, bind, os_read, os_run, emit.
      cbn [os globals trace]. fold model_path. rewrite D.
      cbn [negb os globals trace]. rewrite Mk.
      cbn [os globals trace]. rewrite Dl.
      cbn [os globals trace]. rewrite <- !app_assoc. reflexivity.
    + intros R D2 G.
      pose proof (_find_model_weights_present model_name w1) as Pr.
      cbn [os globals trace w1] in Pr. rewrite R in Pr.
      fold model_path in Pr. fold pattern in Pr.
      rewrite (Pr D2), G. reflexivity.
Qed.

Lemma failed_fetch_is_not_retried_witness :
  let w := mkWorld SimplePlatform.fresh unbound [] in
  let w1 := fst (TFSlimModel._find_model_weights "inception_v2" w) in
  snd (TFSlimModel._find_model_weights "inception_v2" w)
  = Raise (ExternalError "download failed")
  /\ snd (TFSlimModel._find_model_weights "inception_v2" w1)
     = Raise (AssertionError "len(fnames) > 0").
Proof.
  intros w w1.
  destruct (proj2 (failed_fetch_is_not_retried _ SimplePlatform.platform
                     "inception_v2" w
                     (SimplePlatform.mk [] "/home/user"
                        [("/home/user/.candidate_models/model-weights/slim/inception_v2",
                          [])]
                        (SimplePlatform.bucket SimplePlatform.fresh))
                     (ExternalError "download failed") eq_refl)
              eq_refl _ eq_refl) as [First Second].
  split.
  - exact (f_equal snd First).
  - exact (f_equal snd (Second eq_refl eq_refl eq_refl)).
Defined.

(** X10. When the cache directory was missing and has been created and
    filled, a second call on a platform where the directory then exists, with
    the cache root unchanged, makes the glob its only external call and
    returns what the first call returned. *)
Theorem second_lookup_does_not_fetch
    (OS : Type) (P : Platform OS) (model_name : string) (w : World OS)
    (o1 o2 : OS) :
  let model_path :=
    posixpath.join (TFSlimModel.cache_root (os w)) [model_name] in
  let pattern := posixpath.join model_path ["*.ckpt*"] in
  isdir (os w) model_path = false ->
  makedirs model_path (os w) = (o1, Ok tt) ->
  download_folder ("slim/" ++ model_name) model_path o1 = (o2, Ok tt) ->
  TFSlimModel.cache_root o2 = TFSlimModel.cache_root (os w) ->
  isdir o2 model_path = true ->
  let w1 := fst (TFSlimModel._find_model_weights model_name w) in
  TFSlimModel._find_model_weights model_name w1
  = (mkWorld o2 (globals w) (trace w1 ++ [glob_glob pattern]),
     snd (TFSlimModel._find_model_weights model_name w)).
Proof.
  intros model_path pattern D Mk Dl R D2 w1. subst w1 pattern model_path.
  rewrite (_find_model_weights_missing model_name w o1 o2 D Mk Dl).
  cbn [fst snd].
  match goal with
  | |- TFSlimModel._find_model_weights _ ?w1 = _ =>
      pose proof (_find_model_weights_present model_name w1) as Pr
  end.
  cbn [os globals trace] in Pr. rewrite R in Pr.
  rewrite (Pr D2). reflexivity.
Qed.

Lemma second_lookup_does_not_fetch_witness :
  let w := mkWorld SimplePlatform.fresh unbound [] in
  let w1 := fst (TFSlimModel._find_model_weights "inception_v1" w) in
  snd (TFSlimModel._find_model_weights "inception_v1" w1)
  = snd (TFSlimModel._find_model_weights "inception_v1" w).
Proof.
  intros w w1.
  exact (f_equal snd
           (second_lookup_does_not_fetch _ SimplePlatform.platform
              "inception_v1" w _ _ eq_refl eq_refl eq_refl eq_refl eq_refl)).
Defined.

(** X11. Whenever [_find_model_weights] returns, the path ends with [.ckpt]
    and is cut from the first match of the glob in the state the call leaves,
    whatever the other matches are. *)
Theorem restore_path_ends_with_ckpt
    (OS : Type) (P : Platform OS) (model_name : string) (w : World OS)
    (path : string) :
  snd (TFSlimModel._find_model_weights model_name w) = Ok path ->
  PyStr.endswith path ".ckpt" = true
  /\ exists f others,
       glob (os (fst (TFSlimModel._find_model_weights model_name w)))
         (posixpath.join
            (posixpath.join (TFSlimModel.cache_root (os w)) [model_name])
            ["*.ckpt*"])
       = f :: others
       /\ path = PyStr.split_head ".ckpt" f ++ ".ckpt".
Proof.
  intros R. destruct (_find_model_weights_returns _ _ _ R) as (f & others & G & E).
  split.
  - rewrite E. apply endswith_app.
  - exists f, others. auto.
Qed.

Lemma restore_path_ends_with_ckpt_witness :
  PyStr.endswith
    "/home/user/.candidate_models/model-weights/slim/mobilenet_v2_0.35_96/mobilenet_v2_0.35_96.ckpt"
    ".ckpt" = true.
Proof.
  exact (proj1 (restore_path_ends_with_ckpt _ SimplePlatform.platform
                  "mobilenet_v2_0.35_96"
                  (mkWorld SimplePlatform.fresh unbound []) _ eq_refl)).
Defined.

(** X12. The cut is made at the first [.ckpt] of the whole path, not of
    the file name: when the cache directory itself contains [.ckpt], the
    path returned for a match below it is the directory path cut there, and
    does not name the match. *)
Theorem restore_path_is_cut_inside_the_directory
    (OS : Type) (P : Platform OS) (model_name : string) (w : World OS)
    (below : string) (others : list string) :
  let model_path :=
    posixpath.join (TFSlimModel.cache_root (os w)) [model_name] in
  let pattern := posixpath.join model_path ["*.ckpt*"] in
  isdir (os w) model_path = true ->
  glob (os w) pattern = (model_path ++ below) :: others ->
  PyStr.contains ".ckpt" model_path = true ->
  snd (TFSlimModel._find_model_weights model_name w)
  = Ok (PyStr.split_head ".ckpt" model_path ++ ".ckpt").
Proof.
  intros model_path pattern D G C.
  rewrite (_find_model_weights_present model_name w D).
  fold model_path. fold pattern. rewrite G. cbn [snd].
  rewrite split_head_app by exact C. reflexivity.
Qed.

Lemma restore_path_is_cut_inside_the_directory_witness :
  snd (TFSlimModel._find_model_weights "inception_v1"
         (mkWorld
            (SimplePlatform.mk [("CM_TSLIM_WEIGHTS_DIR", "/data/run.ckpt.d")]
               "/home/user"
               [("/data/run.ckpt.d/inception_v1", ["inception_v1.ckpt"])] [])
            unbound []))
  = Ok "/data/run.ckpt".
Proof.
  exact (restore_path_is_cut_inside_the_directory _ SimplePlatform.platform
           "inception_v1"
           (mkWorld
              (SimplePlatform.mk [("CM_TSLIM_WEIGHTS_DIR", "/data/run.ckpt.d")]
                 "/home/user"
                 [("/data/run.ckpt.d/inception_v1", ["inception_v1.ckpt"])] [])
              unbound [])
           "/inception_v1.ckpt" [] eq_refl eq_refl eq_refl).
Defined.

(** X13. A model name that starts with [/] is taken as the cache directory
    itself: the cache root and both overrides are ignored, the directory that
    is tested, created and globbed is the name, and the folder fetched is
    [slim/] followed by the name. *)
Theorem absolute_model_name_ignores_the_cache_root
    (OS : Type) (P : Platform OS) (model_name : string) (w : World OS) :
  PyStr.startswith model_name "/" = true ->
  let pattern := posixpath.join model_name ["*.ckpt*"] in
  let after := fst (TFSlimModel._find_model_weights model_name w) in
  (isdir (os w) model_name = true ->
     trace after = (trace w ++ [glob_glob pattern])%list)
  /\ (isdir (os w) model_name = false ->
      forall o1 o2,
        makedirs model_name (os w) = (o1, Ok tt) ->
        download_folder ("slim/" ++ model_name) model_name o1 = (o2, Ok tt) ->
        trace after
        = (trace w ++ [os_makedirs model_name;
                       s3_download_folder ("slim/" ++ model_name) model_name;
                       glob_glob pattern])%list).
Proof.
  intros A pattern after. subst after pattern.
  pose proof (join_absolute (TFSlimModel.cache_root (os w)) model_name A) as J.
  split.
  - intros D. pose proof (_find_model_weights_present model_name w) as Pr.
    cbv zeta in Pr. rewrite J in Pr. rewrite (Pr D). reflexivity.
  - intros D o1 o2 Mk Dl.
    pose proof (_find_model_weights_missing model_name w o1 o2) as Mi.
    cbv zeta in Mi. rewrite J in Mi. rewrite (Mi D Mk Dl). reflexivity.
Qed.

Lemma absolute_model_name_ignores_the_cache_root_witness :
  trace (fst (TFSlimModel._find_model_weights "/srv/weights"
                (mkWorld
                   (SimplePlatform.mk [("CM_TSLIM_WEIGHTS_DIR", "/data")]
                      "/home/user" [("/srv/weights", [])] [])
                   unbound [])))
  = [glob_glob "/srv/weights/*.ckpt*"]
  /\ trace (fst (TFSlimModel._find_model_weights "/srv/weights"
                   (mkWorld
                      (SimplePlatform.mk [("CM_TSLIM_WEIGHTS_DIR", "/data")]
                         "/home/user" []
                         [("slim//srv/weights", ["model.ckpt"])])
                      unbound [])))
     = [os_makedirs "/srv/weights";
        s3_download_folder "slim//srv/weights" "/srv/weights";
        glob_glob "/srv/weights/*.ckpt*"].
Proof.
  split.
  - exact (proj1 (absolute_model_name_ignores_the_cache_root
                    _ SimplePlatform.platform "/srv/weights"
                    (mkWorld
                       (SimplePlatform.mk [("CM_TSLIM_WEIGHTS_DIR", "/data")]
                          "/home/user" [("/srv/weights", [])] [])
                       unbound [])
                    eq_refl) eq_refl).
  - exact (proj2 (absolute_model_name_ignores_the_cache_root
                    _ SimplePlatform.platform "/srv/weights"
                    (mkWorld
                       (SimplePlatform.mk [("CM_TSLIM_WEIGHTS_DIR", "/data")]
                          "/home/user" []
                          [("slim//srv/weights", ["model.ckpt"])])
                       unbound [])
                    eq_refl)
             eq_refl _ _ eq_refl eq_refl).
Defined.

(** ** More on merging pools *)

Section MergeMore.
Context {M : Type}.
Implicit Types (a b items : list (string * M)).

Lemma brain_translated_pool_flat a b :
  brain_translated_pool a b = add_pool (a ++ b) UniqueKeyDict.empty.
Proof.
  unfold brain_translated_pool, fill_brain_translated_pool.
  rewrite add_pool_app. reflexivity.
Qed.

Lemma NoDup_nodupb (l : list string) : NoDup l -> nodupb l = true.
Proof.
  induction 1 as [|x l K N IH]; simpl; [reflexivity|].
  rewrite IH, andb_true_r. apply negb_true_iff.
  destruct (existsb (String.eqb x) l) eqn:E; [|reflexivity].
  apply existsb_exists in E. destruct E as (y & I & E).
  apply String.eqb_eq in E. subst y. contradiction.
Qed.

Lemma add_pool_ok_iff items :
  snd (add_pool items UniqueKeyDict.empty) = Ok tt <-> NoDup (dict.keys items).
Proof.
  split.
  - intros R. destruct (nodupb (dict.keys items)) eqn:B;
      [apply nodupb_NoDup; exact B|].
    assert (D : ~ NoDup (dict.keys items))
      by (intros N; rewrite (NoDup_nodupb _ N) in B; discriminate B).
    destruct (add_pool_duplicate items UniqueKeyDict.empty)
      as (before & k & v & after & _ & _ & _ & E);
      [constructor | exact D |].
    rewrite E in R. discriminate R.
  - intros N. rewrite (add_pool_fresh items UniqueKeyDict.empty N).
    reflexivity.
Qed.

Lemma NoDup_app_disjoint {A : Type} (l1 l2 : list A) :
  NoDup (l1 ++ l2) -> forall x, In x l1 -> ~ In x l2.
Proof.
  induction l1 as [|y l1 IH]; simpl; intros N x I; [contradiction|].
  inversion N as [|? ? K N']; subst. destruct I as [->|I].
  - intros I2. apply K. apply in_or_app. auto.
  - apply IH; assumption.
Qed.

Lemma NoDup_app_swap {A : Type} (l1 l2 : list A) :
  NoDup (l1 ++ l2) -> NoDup (l2 ++ l1).
Proof.
  intros N. apply NoDup_app.
  - exact (NoDup_app_remove_l _ _ N).
  - exact (NoDup_app_remove_r _ _ N).
  - intros x I2 I1. exact (NoDup_app_disjoint _ _ N x I1 I2).
Qed.

Lemma get_app a b k :
  dict.get (a ++ b)%list k
  = match dict.get a k with
    | Some v => Some v
    | None => dict.get b k
    end.
Proof.
  induction a as [|[k0 v0] a IH]; simpl; [reflexivity|].
  destruct (String.eqb k0 k); [reflexivity | exact IH].
Qed.

Lemma get_In_keys (d : dict.t M) k v :
  dict.get d k = Some v -> In k (dict.keys d).
Proof.
  intros G. apply contains_In. unfold dict.contains. rewrite G. reflexivity.
Qed.

End MergeMore.

(** X14. Filling [brain_translated_pool] from its two pools succeeds in one
    order exactly when it succeeds in the other, and both orders then give
    registries with the same entry under every identifier; the order of the
    pools decides the order of the keys and, on failure, which entries are
    in, not which entry wins. *)
Theorem pool_order_does_not_change_the_entries
    (M : Type) (ml_brain_pool cornet_brain_pool : list (string * M)) :
  (snd (brain_translated_pool ml_brain_pool cornet_brain_pool) = Ok tt
   <-> snd (brain_translated_pool cornet_brain_pool ml_brain_pool) = Ok tt)
  /\ (snd (brain_translated_pool ml_brain_pool cornet_brain_pool) = Ok tt ->
      forall k,
        dict.get (fst (brain_translated_pool ml_brain_pool cornet_brain_pool)) k
        = dict.get
            (fst (brain_translated_pool cornet_brain_pool ml_brain_pool)) k).
Proof.
  rewrite !brain_translated_pool_flat, !add_pool_ok_iff.
  unfold dict.keys. rewrite !map_app. split.
  - split; apply NoDup_app_swap.
  - intros N k.
    assert (N1 : NoDup (dict.keys (@UniqueKeyDict.empty M)
                        ++ dict.keys (ml_brain_pool ++ cornet_brain_pool)%list))
      by (unfold dict.keys; simpl; rewrite map_app; exact N).
    assert (N2 : NoDup (dict.keys (@UniqueKeyDict.empty M)
                        ++ dict.keys (cornet_brain_pool ++ ml_brain_pool)%list))
      by (unfold dict.keys; simpl; rewrite map_app; apply NoDup_app_swap;
          exact N).
    rewrite (add_pool_fresh _ _ N1), (add_pool_fresh _ _ N2).
    simpl. rewrite !get_app.
    destruct (dict.get ml_brain_pool k) as [v1|] eqn:G1;
      destruct (dict.get cornet_brain_pool k) as [v2|] eqn:G2;
      try reflexivity.
    exfalso.
    exact (NoDup_app_disjoint _ _ N k (get_In_keys _ _ _ G1)
             (get_In_keys _ _ _ G2)).
Qed.

Lemma pool_order_does_not_change_the_entries_witness :
  dict.get (fst (brain_translated_pool [("x", 1)] [("y", 3); ("z", 4)])) "y"
  = dict.get (fst (brain_translated_pool [("y", 3); ("z", 4)] [("x", 1)])) "y".
Proof.
  exact (proj2 (pool_order_does_not_change_the_entries Z
                  [("x", 1)] [("y", 3); ("z", 4)]) eq_refl "y").
Defined.
